(** * The OGR geocoding client (ogr/ogr_geocoding.cpp)

    A shallow embedding of the request pipeline of the geocoding client:
    the query-template validator, session creation, the URL-keyed response
    cache, the per-service rate limiter, the request executor and the
    decoder of the Nominatim XML answer.

    C strings are [string]; a [char*] that may be NULL is [option string];
    the C [int] used as a boolean is [bool]; a [double] is a type of its
    own, [double], whose arithmetic is that of the machine and is taken as
    it is. *)

From Stdlib Require Import String Ascii ZArith QArith Bool Lia Lqa.
From Stdlib Require Floats Uint63.
From stdpp Require Import base list.

Open Scope string_scope.
Open Scope Z_scope.

(* ================================================================== *)
(** ** The query-template validator *)
(* ================================================================== *)

(** The two locals of [OGRGeocodeHasStringValidFormat]. *)
Record FormatScan := {
  bValidFormat : bool;
  bFoundPctS : bool
}.

(** The [while( *pszIter != '\0' )] loop of
    [OGRGeocodeHasStringValidFormat].  The argument is the text from
    [pszIter] on, so that [pszIter[1]] is the head of the tail and the end
    of the text is the terminating NUL.  A [break] returns the scan state
    as it is. *)
Fixpoint format_loop (pszIter : string) (st : FormatScan) : FormatScan :=
  match pszIter with
  | EmptyString => st
  | String c rest =>
      if Ascii.eqb c "%" then
        match rest with
        | String c1 rest1 =>
            if Ascii.eqb c1 "%" then
              (* pszIter ++ twice: the escaped percent sign is skipped *)
              format_loop rest1 st
            else if Ascii.eqb c1 "s" then
              if bFoundPctS st then
                {| bValidFormat := false; bFoundPctS := bFoundPctS st |}
              else
                format_loop rest
                  {| bValidFormat := bValidFormat st; bFoundPctS := true |}
            else
              {| bValidFormat := false; bFoundPctS := bFoundPctS st |}
        | EmptyString =>
            (* pszIter[1] is the terminating NUL *)
            {| bValidFormat := false; bFoundPctS := bFoundPctS st |}
        end
      else format_loop rest st
  end.

Definition OGRGeocodeHasStringValidFormat (pszQueryTemplate : string) : bool :=
  let st := format_loop pszQueryTemplate
              {| bValidFormat := true; bFoundPctS := false |} in
  if negb (bFoundPctS st) then false else bValidFormat st.

(** The reading of the contract of the validator: the template is cut,
    from left to right, into plain characters, escaped percent signs
    ([%%]), placeholders ([%s]) and malformed escapes (a [%] followed by
    any other character, or by the end of the text). *)
Inductive TemplateToken :=
| TokChar (c : ascii)
| TokPercent
| TokPlaceholder
| TokMalformed.

Fixpoint template_tokens (s : string) : list TemplateToken :=
  match s with
  | EmptyString => []
  | String c rest =>
      if Ascii.eqb c "%" then
        match rest with
        | String c1 rest1 =>
            if Ascii.eqb c1 "%" then TokPercent :: template_tokens rest1
            else if Ascii.eqb c1 "s" then TokPlaceholder :: template_tokens rest1
            else TokMalformed :: template_tokens rest
        | EmptyString => [TokMalformed]
        end
      else TokChar c :: template_tokens rest
  end.

Definition is_placeholder (t : TemplateToken) : bool :=
  match t with TokPlaceholder => true | _ => false end.

Definition is_malformed (t : TemplateToken) : bool :=
  match t with TokMalformed => true | _ => false end.

Definition placeholder_count (s : string) : nat :=
  length (List.filter is_placeholder (template_tokens s)).

Definition malformed_count (s : string) : nat :=
  length (List.filter is_malformed (template_tokens s)).

(** Exactly one placeholder, and every other percent sign escaped. *)
Definition template_well_formed (s : string) : Prop :=
  placeholder_count s = 1%nat /\ malformed_count s = 0%nat.

(* ================================================================== *)
(** ** The libraries the client is written against *)
(* ================================================================== *)

(** What [ogr_geocoding.cpp] uses of the portability library (cpl_port.h,
    cpl_string.h, cpl_conv.h) is not part of the file; the functions are
    taken as they are called.  A string list of [NAME=VALUE] entries
    ([char**]) is a list of pairs. *)
Inductive CPLEscapeScheme := CPLES_URL | CPLES_SQL.

(** The C [double] with what the client does with one: the constant
    [0.0], the sum and the difference of the rate limiter ([a + b - c] is
    [(a + b) - c]) and its comparison [a < b].  The results are those of
    the machine, rounded as the machine rounds them. *)
Class Double := {
  double : Type;
  double_zero : double;
  double_add : double -> double -> double;
  double_sub : double -> double -> double;
  double_lt : double -> double -> bool
}.

Class CPLPort `{Double} := {
  EQUAL : string -> string -> bool;
  EQUALN : string -> string -> nat -> bool;
  CPLGetExtension : string -> string;
  CSLFetchNameValue : list (string * string) -> string -> option string;
  (** the process-wide configuration options that are set *)
  config_option : string -> option string;
  CSLTestBoolean : string -> bool;
  CPLAtofM : string -> double;
  CPLSPrintf : string -> list string -> string;
  CPLEscapeString : string -> CPLEscapeScheme -> string;
  GDALVersionInfo : string -> string
}.

(** Modelled from the spec: [CPLGetConfigOption], which is not in the file,
    gives the process-wide named configuration value if there is one and
    the default otherwise. *)
Definition CPLGetConfigOption `{CPLPort} (pszKey : string)
    (pszDefault : option string) : option string :=
  match config_option pszKey with
  | Some v => Some v
  | None => pszDefault
  end.

(** The answer of [CPLHTTPFetch] when it is not NULL; [pabyData] may be. *)
Record CPLHTTPResult := { pabyData : option string }.

Inductive OGRFieldType := OFTInteger | OFTReal | OFTString.

(** The test [p == NULL] of a pointer. *)
Definition is_NULL {A} (p : option A) : bool :=
  match p with
  | None => true
  | Some _ => false
  end.

(** The outside of the process: the clock, the network and the OGR data
    sources that hold the cache.  Every call takes the state of the outside
    and gives the new one.  Handles ([OGRDataSource*], [OGRLayer*],
    [OGRSFDriverH], the [OGRFeature*] read from the cache layer) are
    opaque. *)
Class Backend `{Double} := {
  Env : Type;
  OGRDataSource : Type;
  OGRLayer : Type;
  OGRSFDriver : Type;
  OGRCacheFeature : Type;
  (** the reading [tv.tv_sec + tv.tv_usec / 1e6] of the clock, in seconds *)
  gettimeofday : Env -> double;
  CPLSleep : double -> Env -> Env;
  CPLHTTPFetch : string -> list (string * string) -> Env
                 -> option CPLHTTPResult * Env;
  OGROpen : string -> bool -> Env -> option OGRDataSource * Env;
  OGRGetDriverByName : string -> Env -> option OGRSFDriver * Env;
  OGR_Dr_CreateDataSource : OGRSFDriver -> string -> list (string * string)
                            -> Env -> option OGRDataSource * Env;
  GetLayerByName : OGRDataSource -> string -> Env -> option OGRLayer * Env;
  CreateLayer : OGRDataSource -> string -> Env -> option OGRLayer * Env;
  CreateField : OGRLayer -> string -> OGRFieldType -> Env -> unit * Env;
  GetName : OGRLayer -> Env -> string * Env;
  ExecuteSQL : OGRDataSource -> string -> Env -> unit * Env;
  LayerDefn_GetFieldIndex : OGRLayer -> string -> Env -> Z * Env;
  SetAttributeFilter : OGRLayer -> string -> Env -> unit * Env;
  GetNextFeature : OGRLayer -> Env -> option OGRCacheFeature * Env;
  IsFieldSet : OGRCacheFeature -> Z -> bool;
  GetFieldAsString : OGRCacheFeature -> Z -> string;
  (** a new feature of the layer with the named fields set, handed to
      [CreateFeature]; the answer tells whether it gave [OGRERR_NONE] *)
  CreateFeature : OGRLayer -> list (string * string) -> Env -> bool * Env
}.

(* ================================================================== *)
(** ** Sessions and the state of the process *)
(* ================================================================== *)

Definition OSM_NOMINATIM_QUERY : string :=
  "http://nominatim.openstreetmap.org/search?q=%s&format=xml&polygon_text=1&addressdetails=1".
Definition MAPQUEST_NOMINATIM_QUERY : string :=
  "http://open.mapquestapi.com/nominatim/v1/search.php?q=%s&format=xml&addressdetails=1".

Definition CACHE_LAYER_NAME : string := "ogr_geocode_cache".
Definition DEFAULT_CACHE_SQLITE : string := "ogr_geocode_cache.sqlite".
Definition DEFAULT_CACHE_CSV : string := "ogr_geocode_cache.csv".

Definition FIELD_URL : string := "url".
Definition FIELD_BLOB : string := "blob".

(** [struct _OGRGeocodingSessionHS]. *)
Record OGRGeocodingSession `{Backend} := {
  pszCacheFilename : string;
  pszGeocodingService : string;
  pszEmail : option string;
  pszApplication : string;
  pszQueryTemplate : string;
  pszExtraQueryParameters : option string;
  bReadCache : bool;
  bWriteCache : bool;
  dfDelayBetweenQueries : double;
  poDS : option OGRDataSource
}.

(** The calls to the outside that a geocoding request makes, in the order
    they are made.  The journal is kept by the model, not by the program:
    it is what a counting substitute of the transport, the clock and the
    cache would record. *)
Inductive Event `{Double} :=
| EvGetTimeOfDay (t : double)
| EvSleep (d : double)
| EvHTTPFetch (url : string) (options : list (string * string))
    (start : double)
| EvCacheGet (url : string)
| EvCachePut (url content : string).

(** The state a request runs in: the session the handle points to, the two
    file-level time stamps, the outside, and the journal.  ([hMutex] is not
    modelled: calls are run one after the other.) *)
Record Process `{Backend} := {
  hSession : OGRGeocodingSession;
  dfLastQueryTimeStampOSMNominatim : double;
  dfLastQueryTimeStampMapQuestNominatim : double;
  env : Env;
  journal : list Event
}.

Section Monad.
Context `{Backend}.

Definition M (A : Type) : Type := Process -> A * Process.

Definition ret {A} (a : A) : M A := fun p => (a, p).

Definition bind {A B} (m : M A) (k : A -> M B) : M B :=
  fun p => let (a, p') := m p in k a p'.

Definition set_env (e : Env) (p : Process) : Process :=
  {| hSession := hSession p;
     dfLastQueryTimeStampOSMNominatim := dfLastQueryTimeStampOSMNominatim p;
     dfLastQueryTimeStampMapQuestNominatim :=
       dfLastQueryTimeStampMapQuestNominatim p;
     env := e;
     journal := journal p |}.

Definition set_session (s : OGRGeocodingSession) (p : Process) : Process :=
  {| hSession := s;
     dfLastQueryTimeStampOSMNominatim := dfLastQueryTimeStampOSMNominatim p;
     dfLastQueryTimeStampMapQuestNominatim :=
       dfLastQueryTimeStampMapQuestNominatim p;
     env := env p;
     journal := journal p |}.

Definition add_event (ev : Event) (p : Process) : Process :=
  {| hSession := hSession p;
     dfLastQueryTimeStampOSMNominatim := dfLastQueryTimeStampOSMNominatim p;
     dfLastQueryTimeStampMapQuestNominatim :=
       dfLastQueryTimeStampMapQuestNominatim p;
     env := env p;
     journal := journal p ++ [ev] |}.

(** A call to the outside. *)
Definition call {A} (f : Env -> A * Env) : M A :=
  fun p => let (a, e) := f (env p) in (a, set_env e p).

Definition get_session : M OGRGeocodingSession := fun p => (hSession p, p).

Definition record (ev : Event) : M unit := fun p => (tt, add_event ev p).

(** [CPLFree(hSession->pszCacheFilename);
    hSession->pszCacheFilename = CPLStrdup(...)]. *)
Definition set_pszCacheFilename (f : string) : M unit :=
  fun p =>
    let s := hSession p in
    (tt, set_session
           {| pszCacheFilename := f;
              pszGeocodingService := pszGeocodingService s;
              pszEmail := pszEmail s;
              pszApplication := pszApplication s;
              pszQueryTemplate := pszQueryTemplate s;
              pszExtraQueryParameters := pszExtraQueryParameters s;
              bReadCache := bReadCache s;
              bWriteCache := bWriteCache s;
              dfDelayBetweenQueries := dfDelayBetweenQueries s;
              poDS := poDS s |} p).

(** [hSession->poDS = poDS]. *)
Definition set_poDS (ds : OGRDataSource) : M unit :=
  fun p =>
    let s := hSession p in
    (tt, set_session
           {| pszCacheFilename := pszCacheFilename s;
              pszGeocodingService := pszGeocodingService s;
              pszEmail := pszEmail s;
              pszApplication := pszApplication s;
              pszQueryTemplate := pszQueryTemplate s;
              pszExtraQueryParameters := pszExtraQueryParameters s;
              bReadCache := bReadCache s;
              bWriteCache := bWriteCache s;
              dfDelayBetweenQueries := dfDelayBetweenQueries s;
              poDS := Some ds |} p).
End Monad.

Notation "x <- m ;; k" := (bind m (fun x => k))
  (at level 20, m at level 99, k at level 200, only parsing).
Notation "' pat <- m ;; k" := (bind m (fun x => let 'pat := x in k))
  (at level 20, pat pattern, m at level 99, k at level 200, only parsing).
Notation "m ;; k" := (bind m (fun _ => k))
  (at level 100, k at level 200, only parsing, right associativity).

(* ================================================================== *)
(** ** Session creation *)
(* ================================================================== *)

Section Session.
Context `{Double} `{!CPLPort} `{!Backend}.

Definition OGRGeocodeGetParameter (papszOptions : list (string * string))
    (pszKey : string) (pszDefaultValue : option string) : option string :=
  match CSLFetchNameValue papszOptions pszKey with
  | Some pszRet => Some pszRet
  | None =>
      CPLGetConfigOption (CPLSPrintf "OGR_GEOCODE_%s" [pszKey])
                         pszDefaultValue
  end.

(** [None] is the NULL handle.  Where the default handed to
    [OGRGeocodeGetParameter] is not NULL its answer is not NULL either;
    the [None] branch of those matches is never taken. *)
Definition OGRGeocodeCreateSession (papszOptions : list (string * string))
    : option OGRGeocodingSession :=
  pszCacheFilename ←
    OGRGeocodeGetParameter papszOptions "CACHE_FILE"
                           (Some DEFAULT_CACHE_SQLITE);
  let osExt := CPLGetExtension pszCacheFilename in
  if negb (EQUALN pszCacheFilename "PG:" 3
           || EQUAL osExt "csv" || EQUAL osExt "sqlite")
  then None
  else
    pszReadCache ←
      OGRGeocodeGetParameter papszOptions "READ_CACHE" (Some "TRUE");
    pszWriteCache ←
      OGRGeocodeGetParameter papszOptions "WRITE_CACHE" (Some "TRUE");
    pszGeocodingService ←
      OGRGeocodeGetParameter papszOptions "SERVICE" (Some "OSM_NOMINATIM");
    let pszEmail := OGRGeocodeGetParameter papszOptions "EMAIL" None in
    pszApplication ←
      OGRGeocodeGetParameter papszOptions "APPLICATION"
                             (Some (GDALVersionInfo ""));
    pszDelayBetweenQueries ←
      OGRGeocodeGetParameter papszOptions "DELAY" (Some "1.0");
    let pszQueryTemplateDefault :=
      if EQUAL pszGeocodingService "OSM_NOMINATIM"
      then Some OSM_NOMINATIM_QUERY
      else if EQUAL pszGeocodingService "MAPQUEST_NOMINATIM"
      then Some MAPQUEST_NOMINATIM_QUERY
      else None in
    match OGRGeocodeGetParameter papszOptions "QUERY_TEMPLATE"
                                 pszQueryTemplateDefault with
    | None => None
    | Some pszQueryTemplate =>
        if negb (OGRGeocodeHasStringValidFormat pszQueryTemplate)
        then None
        else
          Some {| pszCacheFilename := pszCacheFilename;
                  pszGeocodingService := pszGeocodingService;
                  pszEmail := pszEmail;
                  pszApplication := pszApplication;
                  pszQueryTemplate := pszQueryTemplate;
                  pszExtraQueryParameters :=
                    OGRGeocodeGetParameter papszOptions
                                           "EXTRA_QUERY_PARAMETERS" None;
                  bReadCache := CSLTestBoolean pszReadCache;
                  bWriteCache := CSLTestBoolean pszWriteCache;
                  dfDelayBetweenQueries := CPLAtofM pszDelayBetweenQueries;
                  poDS := None |}
    end.
End Session.

(* ================================================================== *)
(** ** The response cache *)
(* ================================================================== *)

Section Cache.
Context `{Double} `{!CPLPort} `{!Backend}.

(** [OGRGeocodeGetCacheLayer], the opening of the store when the session
    has none yet: the configured location, then the CSV file if the
    default SQLite file cannot be opened.  Gives the locals [poDS] and
    [osExt]. *)
Definition open_cache_store (osExt : string)
    : M (option OGRDataSource * string) :=
  s <- get_session ;;
  poDS <- call (OGROpen (pszCacheFilename s) true) ;;
  match poDS with
  | Some ds => ret (Some ds, osExt)
  | None =>
      if EQUAL (pszCacheFilename s) DEFAULT_CACHE_SQLITE then
        poDS <- call (OGROpen DEFAULT_CACHE_CSV true) ;;
        match poDS with
        | Some ds =>
            set_pszCacheFilename DEFAULT_CACHE_CSV ;;
            ret (Some ds, "csv")
        | None => ret (None, osExt)
        end
      else ret (None, osExt)
  end.

(** [OGRGeocodeGetCacheLayer], the creation of the store
    ([if( bCreateIfNecessary && poDS == NULL && ... )]). *)
Definition create_cache_store (bCreateIfNecessary : bool)
    (poDS : option OGRDataSource) (osExt : string)
    : M (option OGRDataSource * string) :=
  s <- get_session ;;
  if bCreateIfNecessary && is_NULL poDS
     && negb (EQUALN (pszCacheFilename s) "PG:" 3)
  then
    hDriver <- call (OGRGetDriverByName osExt) ;;
    '(hDriver, osExt) <-
      match hDriver with
      | Some d => ret (Some d, osExt)
      | None =>
          if EQUAL (pszCacheFilename s) DEFAULT_CACHE_SQLITE then
            set_pszCacheFilename DEFAULT_CACHE_CSV ;;
            hDriver <- call (OGRGetDriverByName "csv") ;;
            ret (hDriver, "csv")
          else ret (None, osExt)
      end ;;
    match hDriver with
    | None => ret (None, osExt)
    | Some hDriver =>
        let papszOptions :=
          if EQUAL osExt "SQLITE" then [("METADATA", "FALSE")] else [] in
        s <- get_session ;;
        poDS <- call (OGR_Dr_CreateDataSource hDriver (pszCacheFilename s)
                                              papszOptions) ;;
        match poDS with
        | Some ds => ret (Some ds, osExt)
        | None =>
            if EQUAL osExt "SQLITE" || EQUAL osExt "CSV" then
              set_pszCacheFilename
                (CPLSPrintf "/vsimem/%s.%s" [CACHE_LAYER_NAME; osExt]) ;;
              s <- get_session ;;
              poDS <- call (OGR_Dr_CreateDataSource hDriver
                              (pszCacheFilename s) papszOptions) ;;
              ret (poDS, osExt)
            else ret (None, osExt)
        end
    end
  else ret (poDS, osExt).

(** [OGRGeocodeGetCacheLayer] from [poDS->GetLayerByName] on: the layer
    of the store, created with its two fields if asked for, and the index
    of the body field. *)
Definition cache_layer_of (bCreateIfNecessary : bool)
    (poDS : OGRDataSource) (osExt : string) : M (option (OGRLayer * Z)) :=
  poLayer <- call (GetLayerByName poDS CACHE_LAYER_NAME) ;;
  poLayer <-
    match poLayer with
    | Some l => ret (Some l)
    | None =>
        if bCreateIfNecessary then
          poLayer <- call (CreateLayer poDS CACHE_LAYER_NAME) ;;
          match poLayer with
          | None => ret None
          | Some l =>
              call (CreateField l FIELD_URL OFTString) ;;
              call (CreateField l FIELD_BLOB OFTString) ;;
              s <- get_session ;;
              (if EQUAL osExt "SQLITE"
                  || EQUALN (pszCacheFilename s) "PG:" 3
               then
                 n1 <- call (GetName l) ;;
                 n2 <- call (GetName l) ;;
                 call (ExecuteSQL poDS
                         (CPLSPrintf "CREATE INDEX idx_%s_%s ON %s(%s)"
                                     [FIELD_URL; n1; n2; FIELD_URL]))
               else ret tt) ;;
              ret (Some l)
          end
        else ret None
    end ;;
  match poLayer with
  | None => ret None
  | Some l =>
      nIdxURL <- call (LayerDefn_GetFieldIndex l FIELD_URL) ;;
      if nIdxURL <? 0 then ret None
      else
        nIdxBlob <- call (LayerDefn_GetFieldIndex l FIELD_BLOB) ;;
        if nIdxBlob <? 0 then ret None else ret (Some (l, nIdxBlob))
  end.

(** The layer and [*pnIdxBlob]; [None] is the NULL layer.  (The toggling
    of the OGR_SQLITE_SYNCHRONOUS configuration option around the opening
    and the registration of the drivers are part of what [OGROpen] and
    [OGRGetDriverByName] answer.) *)
Definition OGRGeocodeGetCacheLayer (bCreateIfNecessary : bool)
    : M (option (OGRLayer * Z)) :=
  s <- get_session ;;
  let osExt := CPLGetExtension (pszCacheFilename s) in
  match poDS s with
  | Some ds => cache_layer_of bCreateIfNecessary ds osExt
  | None =>
      '(poDS, osExt) <- open_cache_store osExt ;;
      '(poDS, osExt) <- create_cache_store bCreateIfNecessary poDS osExt ;;
      match poDS with
      | None => ret None
      | Some ds =>
          set_poDS ds ;;
          cache_layer_of bCreateIfNecessary ds osExt
      end
  end.

Definition OGRGeocodeGetFromCache (pszURL : string) : M (option string) :=
  record (EvCacheGet pszURL) ;;
  poLayer <- OGRGeocodeGetCacheLayer false ;;
  match poLayer with
  | None => ret None
  | Some (poLayer, nIdxBlob) =>
      let pszSQLEscapedURL := CPLEscapeString pszURL CPLES_SQL in
      call (SetAttributeFilter poLayer
              (CPLSPrintf "%s='%s'" [FIELD_URL; pszSQLEscapedURL])) ;;
      poFeature <- call (GetNextFeature poLayer) ;;
      match poFeature with
      | None => ret None
      | Some poFeature =>
          if IsFieldSet poFeature nIdxBlob
          then ret (Some (GetFieldAsString poFeature nIdxBlob))
          else ret None
      end
  end.

Definition OGRGeocodePutIntoCache (pszURL pszContent : string) : M bool :=
  record (EvCachePut pszURL pszContent) ;;
  poLayer <- OGRGeocodeGetCacheLayer true ;;
  match poLayer with
  | None => ret false
  | Some (poLayer, _) =>
      call (CreateFeature poLayer
              [(FIELD_URL, pszURL); (FIELD_BLOB, pszContent)])
  end.
End Cache.

(* ================================================================== *)
(** ** The response decoder *)
(* ================================================================== *)

(** The tree of cpl_minixml.h.  The chain [psChild], [psChild->psNext], ...
    of a node is the list of its children, attributes included; a document
    is the chain that starts at [psRoot]. *)
Inductive CPLXMLNodeType :=
| CXT_Element | CXT_Text | CXT_Attribute | CXT_Comment | CXT_Literal.

#[warnings="-register-all"]
Inductive CPLXMLNode := XMLNode {
  eType : CPLXMLNodeType;
  pszValue : string;
  psChild : list CPLXMLNode
}.

(** The parser and the two accessors of the tree are not part of the file
    and are taken as they are called; [None] is NULL. *)
Class MiniXML := {
  CPLParseXMLString : string -> option (list CPLXMLNode);
  CPLSearchXMLNode : list CPLXMLNode -> string -> option CPLXMLNode;
  CPLGetXMLValue : CPLXMLNode -> option string -> option string
                   -> option string
}.

(** What the decoder uses of the OGR feature classes: geometries, the
    well-known-text reader ([None] when it leaves [poGeometry] NULL), the
    point constructor, and the comparison of names by which
    [OGRFeatureDefn::GetFieldIndex] looks a field up. *)
Class OGRFeatureLib `{Double} := {
  OGRGeometry : Type;
  createFromWkt : string -> option OGRGeometry;
  OGRPoint : double -> double -> OGRGeometry;
  field_name_matches : string -> string -> bool
}.

Record OGRFieldDefn := {
  fld_name : string;
  fld_type : OGRFieldType
}.

(** Modelled from the spec: the running field schema, an ordered list of
    (name, type) pairs with a lookup from name to slot index
    ([OGRFeatureDefn], which is not in the file). *)
Definition OGRFeatureDefn := list OGRFieldDefn.

Fixpoint GetFieldIndex_from `{OGRFeatureLib} (defn : OGRFeatureDefn)
    (pszName : string) (i : Z) : Z :=
  match defn with
  | [] => -1
  | f :: rest =>
      if field_name_matches pszName (fld_name f) then i
      else GetFieldIndex_from rest pszName (i + 1)
  end.

Definition GetFieldIndex `{OGRFeatureLib} (defn : OGRFeatureDefn)
    (pszName : string) : Z :=
  GetFieldIndex_from defn pszName 0.

(** Modelled from the spec: a record, its named scalar attributes held by
    slot index (unset is [None]; the text handed to [SetField] is kept as
    it is) and its optional geometry.  A slot beyond the list is a field
    the schema got after the record was made: it is unset. *)
Record OGRFeature `{OGRFeatureLib} := {
  fields : list (option string);
  poGeometry : option OGRGeometry
}.

(** The record set: [OGRMemLayer] with its schema and its features in the
    order of [CreateFeature]. *)
Record OGRMemLayer `{OGRFeatureLib} := {
  lyr_name : string;
  poFDefn : OGRFeatureDefn;
  papoFeatures : list OGRFeature
}.

(** The four locals of the first pass over a place. *)
Record LatLon `{Double} := {
  bFoundLat : bool;
  bFoundLon : bool;
  dfLat : double;
  dfLon : double
}.

Section Decoder.
Context `{Double} `{!CPLPort} `{!MiniXML} `{!OGRFeatureLib}.

(** [new OGRFeature(poFDefn)]. *)
Definition new_OGRFeature (defn : OGRFeatureDefn) : OGRFeature :=
  {| fields := replicate (length defn) None; poGeometry := None |}.

(** [poFeature->SetField(nIdx, pszVal)]. *)
Definition SetField (poFeature : OGRFeature) (nIdx : Z) (pszVal : string)
    : OGRFeature :=
  {| fields := <[Z.to_nat nIdx := Some pszVal]> (fields poFeature);
     poGeometry := poGeometry poFeature |}.

Definition SetGeometryDirectly (poFeature : OGRFeature) (g : OGRGeometry)
    : OGRFeature :=
  {| fields := fields poFeature; poGeometry := Some g |}.

(** "First iteration to add fields": the loop over the children of a
    place, on the schema of the layer and the four locals. *)
Fixpoint add_fields (psChild : list CPLXMLNode) (defn : OGRFeatureDefn)
    (ll : LatLon) : OGRFeatureDefn * LatLon :=
  match psChild with
  | [] => (defn, ll)
  | c :: psNext =>
      let pszName := pszValue c in
      let pszVal := CPLGetXMLValue c None None in
      if (GetFieldIndex defn pszName <? 0)
         && negb (String.eqb pszName "geotext")
      then
        if String.eqb pszName "place_rank" then
          add_fields psNext
            (defn ++ [{| fld_name := pszName; fld_type := OFTInteger |}])%list ll
        else if String.eqb pszName "lat" then
          add_fields psNext
            (defn ++ [{| fld_name := pszName; fld_type := OFTReal |}])%list
            match pszVal with
            | Some v => {| bFoundLat := true; bFoundLon := bFoundLon ll;
                           dfLat := CPLAtofM v; dfLon := dfLon ll |}
            | None => ll
            end
        else if String.eqb pszName "lon" then
          add_fields psNext
            (defn ++ [{| fld_name := pszName; fld_type := OFTReal |}])%list
            match pszVal with
            | Some v => {| bFoundLat := bFoundLat ll; bFoundLon := true;
                           dfLat := dfLat ll; dfLon := CPLAtofM v |}
            | None => ll
            end
        else
          add_fields psNext
            (defn ++ [{| fld_name := pszName; fld_type := OFTString |}])%list ll
      else add_fields psNext defn ll
  end.

(** "Second iteration to fill the feature". *)
Fixpoint fill_feature (psChild : list CPLXMLNode) (defn : OGRFeatureDefn)
    (poFeature : OGRFeature) : OGRFeature :=
  match psChild with
  | [] => poFeature
  | c :: psNext =>
      let pszName := pszValue c in
      let pszVal := CPLGetXMLValue c None None in
      let nIdx := GetFieldIndex defn pszName in
      if 0 <=? nIdx then
        match pszVal with
        | Some v => fill_feature psNext defn (SetField poFeature nIdx v)
        | None => fill_feature psNext defn poFeature
        end
      else if String.eqb pszName "geotext" then
        match pszVal with
        | Some pszWKT =>
            match createFromWkt pszWKT with
            | Some poGeometry =>
                fill_feature psNext defn
                  (SetGeometryDirectly poFeature poGeometry)
            | None => fill_feature psNext defn poFeature
            end
        | None => fill_feature psNext defn poFeature
        end
      else fill_feature psNext defn poFeature
  end.

Definition no_LatLon : LatLon :=
  {| bFoundLat := false; bFoundLon := false;
     dfLat := double_zero; dfLon := double_zero |}.

(** The record made for one place, from the schema the layer has when
    the place is reached. *)
Definition place_feature (defn : OGRFeatureDefn) (psPlace : CPLXMLNode)
    : OGRFeature :=
  let (defn', ll) := add_fields (psChild psPlace) defn no_LatLon in
  let poFeature :=
    fill_feature (psChild psPlace) defn' (new_OGRFeature defn') in
  match poGeometry poFeature with
  | None =>
      if bFoundLon ll && bFoundLat ll
      then SetGeometryDirectly poFeature (OGRPoint (dfLon ll) (dfLat ll))
      else poFeature
  | Some _ => poFeature
  end.

(** The body of [if( psPlace->eType == CXT_Element && ... )]: the schema
    grows, the record is appended. *)
Definition build_place (psPlace : CPLXMLNode) (poLayer : OGRMemLayer)
    : OGRMemLayer :=
  {| lyr_name := lyr_name poLayer;
     poFDefn :=
       fst (add_fields (psChild psPlace) (poFDefn poLayer) no_LatLon);
     papoFeatures :=
       papoFeatures poLayer ++ [place_feature (poFDefn poLayer) psPlace] |}.

Definition is_place (n : CPLXMLNode) : bool :=
  match eType n with
  | CXT_Element => String.eqb (pszValue n) "place"
  | _ => false
  end.

(** [while( psPlace != NULL )]. *)
Fixpoint place_loop (psPlace : list CPLXMLNode) (poLayer : OGRMemLayer)
    : OGRMemLayer :=
  match psPlace with
  | [] => poLayer
  | n :: psNext =>
      if is_place n then place_loop psNext (build_place n poLayer)
      else place_loop psNext poLayer
  end.

(** [None] is the NULL layer. *)
Definition OGRGeocodeBuildLayer (pszContent : string)
    : option OGRMemLayer :=
  match CPLParseXMLString pszContent with
  | None => None
  | Some psRoot =>
      match CPLSearchXMLNode psRoot "=searchresults" with
      | None => None
      | Some psSearchResults =>
          Some (place_loop (psChild psSearchResults)
                  {| lyr_name := "place"; poFDefn := [];
                     papoFeatures := [] |})
      end
  end.
End Decoder.

(* ================================================================== *)
(** ** The request executor and the rate limiter *)
(* ================================================================== *)

(** What [pdfLastQueryTime] points to. *)
Inductive LastQueryTime :=
| OSMNominatim
| MapQuestNominatim.

Section Geocode.
Context `{Double} `{!CPLPort} `{!Backend} `{!MiniXML} `{!OGRFeatureLib}.

Definition read_LastQueryTime (slot : LastQueryTime) : M double :=
  fun p =>
    (match slot with
     | OSMNominatim => dfLastQueryTimeStampOSMNominatim p
     | MapQuestNominatim => dfLastQueryTimeStampMapQuestNominatim p
     end, p).

Definition write_LastQueryTime (slot : LastQueryTime) (t : double)
    : M unit :=
  fun p =>
    (tt,
     match slot with
     | OSMNominatim =>
         {| hSession := hSession p;
            dfLastQueryTimeStampOSMNominatim := t;
            dfLastQueryTimeStampMapQuestNominatim :=
              dfLastQueryTimeStampMapQuestNominatim p;
            env := env p;
            journal := journal p |}
     | MapQuestNominatim =>
         {| hSession := hSession p;
            dfLastQueryTimeStampOSMNominatim :=
              dfLastQueryTimeStampOSMNominatim p;
            dfLastQueryTimeStampMapQuestNominatim := t;
            env := env p;
            journal := journal p |}
     end).

(** [gettimeofday(&tv, NULL)] and the reading of [tv] in seconds. *)
Definition now : M double :=
  fun p => let t := gettimeofday (env p) in
           (t, add_event (EvGetTimeOfDay t) p).

Definition sleep (d : double) : M unit :=
  record (EvSleep d) ;; call (fun e => (tt, CPLSleep d e)).

Definition http_fetch (url : string) (options : list (string * string))
    : M (option CPLHTTPResult) :=
  (fun p =>
     (tt, add_event (EvHTTPFetch url options (gettimeofday (env p))) p)) ;;
  call (CPLHTTPFetch url options).

(** [osURL]: the template filled with the escaped query, then the extra
    parameters. *)
Definition build_osURL (s : OGRGeocodingSession) (pszQuery : string)
    : string :=
  let pszEscapedQuery := CPLEscapeString pszQuery CPLES_URL in
  let osURL := CPLSPrintf (pszQueryTemplate s) [pszEscapedQuery] in
  match pszExtraQueryParameters s with
  | Some extra => osURL ++ "&" ++ extra
  | None => osURL
  end.

Definition build_osURLWithEmail (s : OGRGeocodingSession) (osURL : string)
    : string :=
  if EQUAL (pszGeocodingService s) "OSM_NOMINATIM" then
    match pszEmail s with
    | Some pszEmail =>
        osURL ++ "&email=" ++ CPLEscapeString pszEmail CPLES_URL
    | None => osURL
    end
  else osURL.

(** The choice of [pdfLastQueryTime]; [None] is NULL. *)
Definition select_LastQueryTime (s : OGRGeocodingSession)
    : option LastQueryTime :=
  if EQUAL (pszGeocodingService s) "OSM_NOMINATIM" then Some OSMNominatim
  else if EQUAL (pszGeocodingService s) "MAPQUEST_NOMINATIM"
  then Some MapQuestNominatim
  else None.

(** The fetch of the miss branch, throttled when [pdfLastQueryTime] is
    not NULL. *)
Definition fetch_throttled (pdfLastQueryTime : option LastQueryTime)
    (osURLWithEmail : string) (papszHTTPOptions : list (string * string))
    : M (option CPLHTTPResult) :=
  match pdfLastQueryTime with
  | Some slot =>
      dfCurrentTime <- now ;;
      last <- read_LastQueryTime slot ;;
      s <- get_session ;;
      (if double_lt dfCurrentTime
            (double_add last (dfDelayBetweenQueries s))
       then sleep (double_sub (double_add last (dfDelayBetweenQueries s))
                              dfCurrentTime)
       else ret tt) ;;
      psResult <- http_fetch osURLWithEmail papszHTTPOptions ;;
      t <- now ;;
      write_LastQueryTime slot t ;;
      ret psResult
  | None => http_fetch osURLWithEmail papszHTTPOptions
  end.

(** The branch [if( pszCachedResult == NULL )]. *)
Definition geocode_miss (osURL osURLWithEmail : string)
    : M (option OGRMemLayer) :=
  s <- get_session ;;
  let pdfLastQueryTime := select_LastQueryTime s in
  let papszHTTPOptions :=
    [("HEADERS", CPLSPrintf "User-Agent: %s" [pszApplication s])] in
  psResult <- fetch_throttled pdfLastQueryTime osURLWithEmail
                              papszHTTPOptions ;;
  match psResult with
  | None => ret None
  | Some psResult =>
      match pabyData psResult with
      | None => ret None
      | Some pszResult =>
          s <- get_session ;;
          (if bWriteCache s
           then OGRGeocodePutIntoCache osURL pszResult
           else ret false) ;;
          ret (OGRGeocodeBuildLayer pszResult)
      end
  end.

(** [pszCachedResult]: the cache is asked only if the session reads it. *)
Definition cached_result (osURL : string) : M (option string) :=
  s <- get_session ;;
  if bReadCache s then OGRGeocodeGetFromCache osURL else ret None.

(** [OGRGeocode] on the session of the process; [None] is the NULL
    layer.  (The check of the handle by VALIDATE_POINTER1 comes first;
    [papszOptions] is not used.) *)
Definition OGRGeocode (pszQuery : option string)
    (papszStructuredQuery : option (list (string * string)))
    : M (option OGRMemLayer) :=
  match pszQuery, papszStructuredQuery with
  | None, None => ret None
  | Some _, Some _ => ret None
  | None, Some _ => ret None
  | Some pszQuery, None =>
      s <- get_session ;;
      let osURL := build_osURL s pszQuery in
      let osURLWithEmail := build_osURLWithEmail s osURL in
      pszCachedResult <- cached_result osURL ;;
      match pszCachedResult with
      | None => geocode_miss osURL osURLWithEmail
      | Some pszCachedResult =>
          ret (OGRGeocodeBuildLayer pszCachedResult)
      end
  end.
End Geocode.

(* ================================================================== *)
(** ** What the statements below speak of *)
(* ================================================================== *)

Section Contracts.
Context `{Double} `{!CPLPort} `{!Backend} `{!MiniXML} `{!OGRFeatureLib}.

(** The eight settings of a session: everything but the cache location and
    the handle of the store. *)
Definition same_settings (s s' : OGRGeocodingSession) : Prop :=
  pszGeocodingService s' = pszGeocodingService s /\
  pszEmail s' = pszEmail s /\
  pszApplication s' = pszApplication s /\
  pszQueryTemplate s' = pszQueryTemplate s /\
  pszExtraQueryParameters s' = pszExtraQueryParameters s /\
  bReadCache s' = bReadCache s /\
  bWriteCache s' = bWriteCache s /\
  dfDelayBetweenQueries s' = dfDelayBetweenQueries s.

(** The cache location is kept, or switched to the CSV default or to an
    in-memory location. *)
Definition fallback_location (f f' : string) : Prop :=
  f' = f \/ f' = DEFAULT_CACHE_CSV \/
  exists osExt, f' = CPLSPrintf "/vsimem/%s.%s" [CACHE_LAYER_NAME; osExt].

Definition session_frame (s s' : OGRGeocodingSession) : Prop :=
  same_settings s s' /\
  fallback_location (pszCacheFilename s) (pszCacheFilename s') /\
  (forall ds, poDS s = Some ds -> s' = s).

Definition stamps_kept (p p' : Process) : Prop :=
  dfLastQueryTimeStampOSMNominatim p' = dfLastQueryTimeStampOSMNominatim p /\
  dfLastQueryTimeStampMapQuestNominatim p' =
    dfLastQueryTimeStampMapQuestNominatim p.

(** What the opening and the creation of the store leave as it is: the
    time stamps, the journal, the settings and the handle; the location is
    kept or falls back. *)
Definition store_frame (p p' : Process) : Prop :=
  stamps_kept p p' /\
  journal p' = journal p /\
  same_settings (hSession p) (hSession p') /\
  fallback_location (pszCacheFilename (hSession p))
                    (pszCacheFilename (hSession p')) /\
  poDS (hSession p') = poDS (hSession p).

(** What a look at the cache layer leaves as it is. *)
Definition cache_frame (p p' : Process) : Prop :=
  stamps_kept p p' /\
  journal p' = journal p /\
  session_frame (hSession p) (hSession p').

(** What a call adds to the journal. *)
Definition journal_grows (p p' : Process) (evs : list Event) : Prop :=
  journal p' = (journal p ++ evs)%list.

(** The cache is addressed by [key], the transport by [url]. *)
Definition url_discipline (key url : string) (ev : Event) : Prop :=
  match ev with
  | EvCacheGet u => u = key
  | EvCachePut u _ => u = key
  | EvHTTPFetch u _ _ => u = url
  | _ => True
  end.

Definition is_fetch (ev : Event) : bool :=
  match ev with EvHTTPFetch _ _ _ => true | _ => false end.

Definition is_timing (ev : Event) : bool :=
  match ev with
  | EvGetTimeOfDay _ | EvSleep _ => true
  | _ => false
  end.

Definition fetch_count (evs : list Event) : nat :=
  length (List.filter is_fetch evs).

Definition stamp (slot : LastQueryTime) (p : Process) : double :=
  match slot with
  | OSMNominatim => dfLastQueryTimeStampOSMNominatim p
  | MapQuestNominatim => dfLastQueryTimeStampMapQuestNominatim p
  end.

Definition other_slot (slot : LastQueryTime) : LastQueryTime :=
  match slot with
  | OSMNominatim => MapQuestNominatim
  | MapQuestNominatim => OSMNominatim
  end.

(** The time at which the throttled fetch is due: the time of the last one
    plus the delay of the session. *)
Definition due_time (slot : LastQueryTime) (p : Process) : double :=
  double_add (stamp slot p) (dfDelayBetweenQueries (hSession p)).

(** What the rate limiter adds to the journal before the fetch, and the
    outside as the fetch finds it. *)
Definition sleep_events (slot : LastQueryTime) (p : Process) : list Event :=
  if double_lt (gettimeofday (env p)) (due_time slot p)
  then [EvSleep (double_sub (due_time slot p) (gettimeofday (env p)))]
  else [].

Definition env_at_fetch (slot : LastQueryTime) (p : Process) : Env :=
  if double_lt (gettimeofday (env p)) (due_time slot p)
  then CPLSleep (double_sub (due_time slot p) (gettimeofday (env p))) (env p)
  else env p.

(** A reading [val] of the doubles as rational numbers is faithful at a
    throttled fetch that finds the time stamp [last] and the outside [e]
    when, at the values the rate limiter computes there, the sum
    [last + delay] is not rounded down, the comparison agrees with the
    numbers and, where the rate limiter sleeps, the difference is not
    rounded down and the sleep lasts at least as long as asked. *)
Definition faithful_at (val : double -> Q) (last delay : double) (e : Env)
    : Prop :=
  let dfCurrentTime := gettimeofday e in
  let due := double_add last delay in
  (val last + val delay <= val due)%Q /\
  (double_lt dfCurrentTime due = false -> (val due <= val dfCurrentTime)%Q) /\
  (double_lt dfCurrentTime due = true ->
   (val due - val dfCurrentTime <= val (double_sub due dfCurrentTime))%Q /\
   (val dfCurrentTime + val (double_sub due dfCurrentTime)
    <= val (gettimeofday (CPLSleep (double_sub due dfCurrentTime) e)))%Q).

(** What the storing of a fetched body adds to the journal. *)
Definition put_events (s : OGRGeocodingSession) (osURL : string)
    (psResult : option CPLHTTPResult) : list Event :=
  match psResult with
  | Some r =>
      match pabyData r with
      | Some pszResult =>
          if bWriteCache s then [EvCachePut osURL pszResult] else []
      | None => []
      end
  | None => []
  end.

(** The layer decoded from the answer of the transport. *)
Definition decoded (psResult : option CPLHTTPResult) : option OGRMemLayer :=
  match psResult with
  | Some r =>
      match pabyData r with
      | Some pszResult => OGRGeocodeBuildLayer pszResult
      | None => None
      end
  | None => None
  end.

(** The options handed to the transport. *)
Definition http_options (s : OGRGeocodingSession)
    : list (string * string) :=
  [("HEADERS", CPLSPrintf "User-Agent: %s" [pszApplication s])].


(** The records of a list of places, each made from the schema the places
    before it have left. *)
Fixpoint records_of (defn : OGRFeatureDefn) (places : list CPLXMLNode)
    : list OGRFeature :=
  match places with
  | [] => []
  | psPlace :: rest =>
      place_feature defn psPlace
      :: records_of (fst (add_fields (psChild psPlace) defn no_LatLon)) rest
  end.

Definition is_geotext (c : CPLXMLNode) : bool :=
  String.eqb (pszValue c) "geotext".

(** A place without its geometry-text children. *)
Definition without_geotext (psPlace : CPLXMLNode) : CPLXMLNode :=
  XMLNode (eType psPlace) (pszValue psPlace)
          (List.filter (fun c => negb (is_geotext c)) (psChild psPlace)).

(** No field of the schema is named [geotext]. *)
Definition not_geotext_field (f : OGRFieldDefn) : Prop :=
  String.eqb (fld_name f) "geotext" = false.

(** The geometry-text children whose text is read all fail to parse. *)
Definition geotext_unparseable (cs : list CPLXMLNode) : Prop :=
  forall c v,
    In c cs -> pszValue c = "geotext" ->
    CPLGetXMLValue c None None = Some v -> createFromWkt v = None.

Definition geometries (l : option OGRMemLayer)
    : option (list (option OGRGeometry)) :=
  option_map (fun l => map poGeometry (papoFeatures l)) l.
End Contracts.

(* ================================================================== *)
(** ** What the further statements speak of *)
(* ================================================================== *)

Section MoreContracts.
Context `{Double} `{!CPLPort} `{!Backend} `{!MiniXML} `{!OGRFeatureLib}.

(** The type the first pass gives a field of a given name. *)
Definition type_of_name (pszName : string) : OGRFieldType :=
  if String.eqb pszName "place_rank" then OFTInteger
  else if String.eqb pszName "lat" then OFTReal
  else if String.eqb pszName "lon" then OFTReal
  else OFTString.

Definition well_typed_field (f : OGRFieldDefn) : Prop :=
  fld_type f = type_of_name (fld_name f).

(** The geometry the geometry texts of a place leave: that of the last one
    that is read as a geometry, [acc] if there is none. *)
Fixpoint geotext_geometry (cs : list CPLXMLNode)
    (acc : option OGRGeometry) : option OGRGeometry :=
  match cs with
  | [] => acc
  | c :: cs' =>
      if is_geotext c then
        match CPLGetXMLValue c None None with
        | Some pszWKT =>
            match createFromWkt pszWKT with
            | Some g => geotext_geometry cs' (Some g)
            | None => geotext_geometry cs' acc
            end
        | None => geotext_geometry cs' acc
        end
      else geotext_geometry cs' acc
  end.

Definition is_get (ev : Event) : bool :=
  match ev with EvCacheGet _ => true | _ => false end.

Definition is_put (ev : Event) : bool :=
  match ev with EvCachePut _ _ => true | _ => false end.

Definition is_sleep (ev : Event) : bool :=
  match ev with EvSleep _ => true | _ => false end.

Definition get_count (evs : list Event) : nat :=
  length (List.filter is_get evs).

Definition put_count (evs : list Event) : nat :=
  length (List.filter is_put evs).

Definition sleep_count (evs : list Event) : nat :=
  length (List.filter is_sleep evs).

(** The difference [b - a] of two doubles with [a < b] is found
    positive. *)
Definition positive_difference : Prop :=
  forall a b : double,
    double_lt a b = true -> double_lt double_zero (double_sub b a) = true.

(** The cache locations [OGRGeocodeCreateSession] accepts. *)
Definition accepted_cache_location (f : string) : bool :=
  EQUALN f "PG:" 3
  || EQUAL (CPLGetExtension f) "csv" || EQUAL (CPLGetExtension f) "sqlite".

(** No percent sign in a text. *)
Fixpoint percent_free (s : string) : bool :=
  match s with
  | EmptyString => true
  | String c rest => negb (Ascii.eqb c "%") && percent_free rest
  end.
End MoreContracts.

(* ================================================================== *)
(** ** A small instance of the libraries *)
(* ================================================================== *)

(** To run the model on concrete requests: doubles that are rational
    numbers with their exact arithmetic, strings compared without case, a
    [printf] that knows [%s] and [%%], escaping left out, a clock that only
    [CPLSleep] and the transport move, data sources that are lists of
    (url, body) rows, and a transport that answers from a table. *)
Module Mock.

#[export] Instance rational : Double := {|
  double := Q;
  double_zero := 0%Q;
  double_add := Qplus;
  double_sub := Qminus;
  double_lt := fun a b => if Qlt_le_dec a b then true else false
|}.

Definition lower (c : ascii) : ascii :=
  let n := nat_of_ascii c in
  if (65 <=? n)%nat && (n <=? 90)%nat then ascii_of_nat (n + 32) else c.

Fixpoint strcasecmp_eq (a b : string) : bool :=
  match a, b with
  | EmptyString, EmptyString => true
  | String x a', String y b' =>
      Ascii.eqb (lower x) (lower y) && strcasecmp_eq a' b'
  | _, _ => false
  end.

Fixpoint take (n : nat) (a : string) : string :=
  match n, a with
  | S n', String x a' => String x (take n' a')
  | _, _ => EmptyString
  end.

Fixpoint extension_from (a acc : string) (seen : bool) : string :=
  match a with
  | EmptyString => if seen then acc else EmptyString
  | String x a' =>
      if Ascii.eqb x "." then extension_from a' EmptyString true
      else extension_from a' (acc ++ String x EmptyString) seen
  end.

Fixpoint sprintf (fmt : string) (args : list string) : string :=
  match fmt with
  | EmptyString => EmptyString
  | String c rest =>
      if Ascii.eqb c "%" then
        match rest with
        | String c1 rest1 =>
            if Ascii.eqb c1 "s" then
              match args with
              | a :: args' => a ++ sprintf rest1 args'
              | [] => sprintf rest1 []
              end
            else String c1 (sprintf rest1 args)
        | EmptyString => EmptyString
        end
      else String c (sprintf rest args)
  end.

Fixpoint assoc {A} (l : list (string * A)) (k : string) : option A :=
  match l with
  | [] => None
  | (k', v) :: l' => if strcasecmp_eq k' k then Some v else assoc l' k
  end.

(** Decimal numbers: an optional sign, digits, an optional fraction. *)
Fixpoint digits (a : string) (acc : Z) (scale : positive) (frac : bool)
    : Z * positive :=
  match a with
  | EmptyString => (acc, scale)
  | String x a' =>
      let n := nat_of_ascii x in
      if (48 <=? n)%nat && (n <=? 57)%nat then
        digits a' (10 * acc + Z.of_nat (n - 48))
               (if frac then 10 * scale else scale)%positive frac
      else if Ascii.eqb x "." && negb frac then digits a' acc scale true
      else (acc, scale)
  end.

Definition atof (a : string) : Q :=
  match a with
  | String "-" a' => let (n, d) := digits a' 0 1 false in Qred (- n # d)
  | _ => let (n, d) := digits a 0 1 false in Qred (n # d)
  end.

#[export] Instance port : CPLPort := {|
  EQUAL := strcasecmp_eq;
  EQUALN := fun a b n => strcasecmp_eq (take n a) (take n b);
  CPLGetExtension := fun a => extension_from a EmptyString false;
  CSLFetchNameValue := assoc;
  config_option := fun _ => None;
  CSLTestBoolean := fun a =>
    negb (strcasecmp_eq a "NO" || strcasecmp_eq a "FALSE"
          || strcasecmp_eq a "OFF" || strcasecmp_eq a "0");
  CPLAtofM := atof;
  CPLSPrintf := sprintf;
  CPLEscapeString := fun a _ => a;
  GDALVersionInfo := fun _ => "GDAL 1.10"
|}.

(** The rows of a cache layer: the url and the body, which may be unset. *)
Definition Rows := list (string * option string).

Record World := {
  clock : Q;
  (** the data sources that exist, each with its cache layer if it has one *)
  stores : list (string * option Rows);
  (** the names of the drivers that are registered *)
  drivers : list string;
  (** the locations at which a data source can be created *)
  creatable : string -> bool;
  (** the answer of the transport to a url, and the time it takes *)
  answer : string -> option CPLHTTPResult;
  latency : Q;
  (** the attribute filter set on the cache layer *)
  attribute_filter : string
}.

Definition with_clock (t : Q) (w : World) : World :=
  {| clock := t; stores := stores w; drivers := drivers w;
     creatable := creatable w; answer := answer w; latency := latency w;
     attribute_filter := attribute_filter w |}.

Definition with_stores (st : list (string * option Rows)) (w : World)
    : World :=
  {| clock := clock w; stores := st; drivers := drivers w;
     creatable := creatable w; answer := answer w; latency := latency w;
     attribute_filter := attribute_filter w |}.

Definition with_filter (f : string) (w : World) : World :=
  {| clock := clock w; stores := stores w; drivers := drivers w;
     creatable := creatable w; answer := answer w; latency := latency w;
     attribute_filter := f |}.

Fixpoint store_of (st : list (string * option Rows)) (name : string)
    : option (option Rows) :=
  match st with
  | [] => None
  | (n, r) :: st' => if String.eqb n name then Some r else store_of st' name
  end.

Fixpoint put_store (st : list (string * option Rows)) (name : string)
    (r : option Rows) : list (string * option Rows) :=
  match st with
  | [] => [(name, r)]
  | (n, r') :: st' =>
      if String.eqb n name then (n, r) :: st'
      else (n, r') :: put_store st' name r
  end.

Definition rows_of (w : World) (name : string) : Rows :=
  match store_of (stores w) name with
  | Some (Some rows) => rows
  | _ => []
  end.

Definition row_matches (flt : string) (row : string * option string)
    : bool :=
  String.eqb flt (sprintf "%s='%s'" [FIELD_URL; fst row]).

#[export] Instance backend : Backend := {|
  Env := World;
  OGRDataSource := string;
  OGRLayer := string;
  OGRSFDriver := string;
  OGRCacheFeature := string * option string;
  gettimeofday := clock;
  CPLSleep := fun d w => with_clock (clock w + d) w;
  CPLHTTPFetch := fun url _ w =>
    (answer w url, with_clock (clock w + latency w) w);
  OGROpen := fun name _ w =>
    (match store_of (stores w) name with
     | Some _ => Some name
     | None => None
     end, w);
  OGRGetDriverByName := fun name w =>
    (if existsb (strcasecmp_eq name) (drivers w) then Some name else None,
     w);
  OGR_Dr_CreateDataSource := fun _ name _ w =>
    if creatable w name
    then (Some name, with_stores (put_store (stores w) name None) w)
    else (None, w);
  GetLayerByName := fun ds _ w =>
    (match store_of (stores w) ds with
     | Some (Some _) => Some ds
     | _ => None
     end, w);
  CreateLayer := fun ds _ w =>
    (Some ds, with_stores (put_store (stores w) ds (Some [])) w);
  CreateField := fun _ _ _ w => (tt, w);
  GetName := fun _ w => (CACHE_LAYER_NAME, w);
  ExecuteSQL := fun _ _ w => (tt, w);
  LayerDefn_GetFieldIndex := fun _ name w =>
    (if strcasecmp_eq name FIELD_URL then 0
     else if strcasecmp_eq name FIELD_BLOB then 1 else -1, w);
  SetAttributeFilter := fun _ flt w => (tt, with_filter flt w);
  GetNextFeature := fun l w =>
    (List.find (row_matches (attribute_filter w)) (rows_of w l), w);
  IsFieldSet := fun f i =>
    if i =? 1 then bool_decide (is_Some (snd f)) else true;
  GetFieldAsString := fun f i =>
    if i =? 1 then default EmptyString (snd f) else fst f;
  CreateFeature := fun l flds w =>
    (true,
     with_stores
       (put_store (stores w) l
          (Some (rows_of w l ++
                 [(default EmptyString (assoc flds FIELD_URL),
                   assoc flds FIELD_BLOB)])%list)) w)
|}.

(** Geometries: points, and well-known texts kept as they are; a text is
    read as a geometry when it starts with POINT or POLYGON. *)
Inductive Geometry :=
| Point (x y : Q)
| Wkt (text : string).

#[export] Instance features : OGRFeatureLib := {|
  OGRGeometry := Geometry;
  createFromWkt := fun t =>
    if strcasecmp_eq (take 5 t) "POINT" || strcasecmp_eq (take 7 t) "POLYGON"
    then Some (Wkt t) else None;
  OGRPoint := Point;
  field_name_matches := strcasecmp_eq
|}.

Definition attribute (name value : string) : CPLXMLNode :=
  XMLNode CXT_Attribute name [XMLNode CXT_Text value []].

Definition element (name : string) (children : list CPLXMLNode)
    : CPLXMLNode :=
  XMLNode CXT_Element name children.

Definition text_of (n : CPLXMLNode) : option string :=
  match eType n with
  | CXT_Attribute =>
      match psChild n with
      | t :: _ => Some (pszValue t)
      | [] => None
      end
  | CXT_Element =>
      match List.filter
              (fun c => match eType c with
                        | CXT_Attribute => false
                        | _ => true
                        end) (psChild n) with
      | [t] => match eType t with
               | CXT_Text => Some (pszValue t)
               | _ => None
               end
      | _ => None
      end
  | _ => None
  end.

Definition named (name : string) (n : CPLXMLNode) : bool :=
  match eType n with
  | CXT_Element | CXT_Attribute => strcasecmp_eq name (pszValue n)
  | _ => false
  end.

Fixpoint search (name : string) (n : CPLXMLNode) : option CPLXMLNode :=
  if named name n then Some n
  else
    (fix search_children (l : list CPLXMLNode) : option CPLXMLNode :=
       match l with
       | [] => None
       | c :: l' =>
           match search name c with
           | Some r => Some r
           | None => search_children l'
           end
       end) (psChild n).

Fixpoint search_chain (name : string) (doc : list CPLXMLNode)
    : option CPLXMLNode :=
  match doc with
  | [] => None
  | n :: doc' =>
      match search name n with
      | Some r => Some r
      | None => search_chain name doc'
      end
  end.

(** The documents the parser of the instance knows. *)
Definition paris : string :=
  "<searchresults><place display_name='Paris, France' lat='48.85' lon='2.35'/></searchresults>".
Definition paris_tree : list CPLXMLNode :=
  [element "searchresults"
     [element "place"
        [attribute "display_name" "Paris, France";
         attribute "lat" "48.85"; attribute "lon" "2.35"]]].

Definition two_places : string :=
  "<searchresults><place lat='48.85' lon='2.35'/><place lat='45.76' lon='4.83'/></searchresults>".
Definition two_places_tree : list CPLXMLNode :=
  [element "searchresults"
     [element "place" [attribute "lat" "48.85"; attribute "lon" "2.35"];
      element "place" [attribute "lat" "45.76"; attribute "lon" "4.83"]]].

Definition bad_geotext : string :=
  "<searchresults><place lat='48.85' lon='2.35'><geotext>nowhere</geotext></place></searchresults>".
Definition bad_geotext_tree : list CPLXMLNode :=
  [element "searchresults"
     [element "place"
        [attribute "lat" "48.85"; attribute "lon" "2.35";
         element "geotext" [XMLNode CXT_Text "nowhere" []]]]].

Definition documents : list (string * list CPLXMLNode) :=
  [(paris, paris_tree); (two_places, two_places_tree);
   (bad_geotext, bad_geotext_tree);
   ("<searchresults/>", [element "searchresults" []]);
   ("<error/>", [element "error" []])].

Fixpoint parse (docs : list (string * list CPLXMLNode)) (body : string)
    : option (list CPLXMLNode) :=
  match docs with
  | [] => None
  | (b, t) :: docs' => if String.eqb b body then Some t else parse docs' body
  end.

#[export] Instance minixml : MiniXML := {|
  CPLParseXMLString := parse documents;
  CPLSearchXMLNode := fun doc name =>
    match name with
    | String "=" name' => search_chain name' doc
    | _ => match doc with
           | n :: _ => search name n
           | [] => None
           end
    end;
  CPLGetXMLValue := fun n _ dflt =>
    match text_of n with
    | Some v => Some v
    | None => dflt
    end
|}.

Definition session (service : string) (email : option string) (delay : Q)
    (read write : bool) : OGRGeocodingSession :=
  {| pszCacheFilename := DEFAULT_CACHE_SQLITE;
     pszGeocodingService := service;
     pszEmail := email;
     pszApplication := "GDAL 1.10";
     pszQueryTemplate := OSM_NOMINATIM_QUERY;
     pszExtraQueryParameters := None;
     bReadCache := read;
     bWriteCache := write;
     dfDelayBetweenQueries := delay;
     poDS := None |}.

Definition world (st : list (string * option Rows))
    (ans : string -> option CPLHTTPResult) : World :=
  {| clock := 100; stores := st; drivers := ["CSV"];
     creatable := fun _ => true; answer := ans; latency := 1 # 4;
     attribute_filter := EmptyString |}.

Definition process (s : OGRGeocodingSession) (w : World) : Process :=
  {| hSession := s;
     dfLastQueryTimeStampOSMNominatim := 0%Q;
     dfLastQueryTimeStampMapQuestNominatim := 0%Q;
     env := w;
     journal := [] |}.

Definition osm_session : OGRGeocodingSession :=
  session "OSM_NOMINATIM" (Some "someone@example.org") 1 true true.

(** A transport that answers every request with the document [paris], and
    one that fails every request. *)
Definition paris_transport (url : string) : option CPLHTTPResult :=
  Some {| pabyData := Some paris |}.


(** A process with no store yet and no SQLite driver. *)
Definition fresh : Process := process osm_session (world [] paris_transport).


(** A process whose last fetch to the OSM service ended half a second
    ago. *)
Definition recent : Process :=
  {| hSession := osm_session;
     dfLastQueryTimeStampOSMNominatim := (199 # 2)%Q;
     dfLastQueryTimeStampMapQuestNominatim := 0%Q;
     env := world [] paris_transport;
     journal := [] |}.

(** A process whose session is for a service of its own, with a delay of
    an hour. *)
Definition elsewhere : Process :=
  process
    {| pszCacheFilename := DEFAULT_CACHE_CSV;
       pszGeocodingService := "PHOTON";
       pszEmail := Some "someone@example.org";
       pszApplication := "GDAL 1.10";
       pszQueryTemplate := "http://photon.example.org/api?q=%s";
       pszExtraQueryParameters := Some "limit=1";
       bReadCache := false;
       bWriteCache := false;
       dfDelayBetweenQueries := 3600%Q;
       poDS := None |}
    (world [] paris_transport).

Definition bad_geotext_place : CPLXMLNode :=
  element "place"
    [attribute "lat" "48.85"; attribute "lon" "2.35";
     element "geotext" [XMLNode CXT_Text "nowhere" []]].

Definition polygon_place : CPLXMLNode :=
  element "place"
    [attribute "lat" "48.85"; attribute "lon" "2.35";
     element "geotext"
       [XMLNode CXT_Text "POLYGON((2 48,3 48,3 49,2 48))" []]].

(** A place with an attribute named GEOTEXT and a geometry text that is
    not one. *)
Definition clashing_geotext_place : CPLXMLNode :=
  element "place"
    [attribute "GEOTEXT" "unknown";
     element "geotext" [XMLNode CXT_Text "nowhere" []]].


(** A process whose session keeps its cache in a file of its own. *)
Definition custom : Process :=
  process
    {| pszCacheFilename := "my_cache.csv";
       pszGeocodingService := "OSM_NOMINATIM";
       pszEmail := None;
       pszApplication := "GDAL 1.10";
       pszQueryTemplate := OSM_NOMINATIM_QUERY;
       pszExtraQueryParameters := None;
       bReadCache := true;
       bWriteCache := true;
       dfDelayBetweenQueries := 1%Q;
       poDS := None |}
    (world [] paris_transport).

End Mock.

(* ================================================================== *)
(** ** The doubles of the machine *)
(* ================================================================== *)

(** To run the rate limiter on binary64 numbers, with their rounded sum
    and difference: a clock that only [CPLSleep] and the transport move, a
    transport that gives the same answer to every request, and no cache
    store. *)
Module Binary64.

#[export] Instance binary64 : Double := {|
  double := PrimFloat.float;
  double_zero := PrimFloat.of_uint63 (Uint63.of_Z 0);
  double_add := PrimFloat.add;
  double_sub := PrimFloat.sub;
  double_lt := PrimFloat.ltb
|}.

(** Decimal numbers: the quotient of the digits by the power of ten,
    rounded once. *)
Definition atof64 (a : string) : PrimFloat.float :=
  match a with
  | String "-" a' =>
      let (n, d) := Mock.digits a' 0 1 false in
      PrimFloat.opp
        (PrimFloat.div (PrimFloat.of_uint63 (Uint63.of_Z n))
                       (PrimFloat.of_uint63 (Uint63.of_Z (Zpos d))))
  | _ =>
      let (n, d) := Mock.digits a 0 1 false in
      PrimFloat.div (PrimFloat.of_uint63 (Uint63.of_Z n))
                    (PrimFloat.of_uint63 (Uint63.of_Z (Zpos d)))
  end.

#[export] Instance port64 : CPLPort := {|
  EQUAL := Mock.strcasecmp_eq;
  EQUALN := fun a b n => Mock.strcasecmp_eq (Mock.take n a) (Mock.take n b);
  CPLGetExtension := fun a => Mock.extension_from a EmptyString false;
  CSLFetchNameValue := Mock.assoc;
  config_option := fun _ => None;
  CSLTestBoolean := fun a =>
    negb (Mock.strcasecmp_eq a "NO" || Mock.strcasecmp_eq a "FALSE"
          || Mock.strcasecmp_eq a "OFF" || Mock.strcasecmp_eq a "0");
  CPLAtofM := atof64;
  CPLSPrintf := Mock.sprintf;
  CPLEscapeString := fun a _ => a;
  GDALVersionInfo := fun _ => "GDAL 1.10"
|}.

Record Host := {
  time : PrimFloat.float;
  (** the time a fetch takes, and its answer *)
  took : PrimFloat.float;
  reply : option CPLHTTPResult
}.

Definition at_time (t : PrimFloat.float) (h : Host) : Host :=
  {| time := t; took := took h; reply := reply h |}.

#[export] Instance backend64 : Backend := {|
  Env := Host;
  OGRDataSource := unit;
  OGRLayer := unit;
  OGRSFDriver := unit;
  OGRCacheFeature := unit;
  gettimeofday := time;
  CPLSleep := fun d h => at_time (PrimFloat.add (time h) d) h;
  CPLHTTPFetch := fun _ _ h =>
    (reply h, at_time (PrimFloat.add (time h) (took h)) h);
  OGROpen := fun _ _ h => (None, h);
  OGRGetDriverByName := fun _ h => (None, h);
  OGR_Dr_CreateDataSource := fun _ _ _ h => (None, h);
  GetLayerByName := fun _ _ h => (None, h);
  CreateLayer := fun _ _ h => (None, h);
  CreateField := fun _ _ _ h => (tt, h);
  GetName := fun _ h => (CACHE_LAYER_NAME, h);
  ExecuteSQL := fun _ _ h => (tt, h);
  LayerDefn_GetFieldIndex := fun _ _ h => (-1, h);
  SetAttributeFilter := fun _ _ h => (tt, h);
  GetNextFeature := fun _ h => (None, h);
  IsFieldSet := fun _ _ => false;
  GetFieldAsString := fun _ _ => EmptyString;
  CreateFeature := fun _ _ h => (false, h)
|}.

(** Geometries: points only. *)
#[export] Instance features64 : OGRFeatureLib := {|
  OGRGeometry := PrimFloat.float * PrimFloat.float;
  createFromWkt := fun _ => None;
  OGRPoint := pair;
  field_name_matches := Mock.strcasecmp_eq
|}.

(** The number a double stands for; zero for what is not finite. *)
Definition value (x : PrimFloat.float) : Q :=
  match FloatOps.Prim2SF x with
  | SpecFloat.S754_finite s m e =>
      let q := if 0 <=? e then inject_Z (Zpos m * 2 ^ e)
               else (Zpos m # 2 ^ Z.to_pos (- e))%Q in
      if s then (- q)%Q else q
  | _ => 0%Q
  end.

(** The time of the clock, and delays of a tenth of a second and of half
    a second. *)
Definition midday : PrimFloat.float := atof64 "1700000000.25".
Definition tenth : PrimFloat.float := atof64 "0.1".
Definition half : PrimFloat.float := atof64 "0.5".

(** A process whose session is for the OSM service, without cache, with
    the delay [tenth]; the fetch takes no time. *)
Definition started : Process :=
  {| hSession :=
       {| pszCacheFilename := DEFAULT_CACHE_SQLITE;
          pszGeocodingService := "OSM_NOMINATIM";
          pszEmail := None;
          pszApplication := "GDAL 1.10";
          pszQueryTemplate := OSM_NOMINATIM_QUERY;
          pszExtraQueryParameters := None;
          bReadCache := false;
          bWriteCache := false;
          dfDelayBetweenQueries := tenth;
          poDS := None |};
     dfLastQueryTimeStampOSMNominatim := double_zero;
     dfLastQueryTimeStampMapQuestNominatim := double_zero;
     env := {| time := midday; took := double_zero;
               reply := Some {| pabyData := Some Mock.paris |} |};
     journal := [] |}.

(** A process whose last fetch to the OSM service has just ended, with a
    delay of half a second. *)
Definition paced : Process :=
  {| hSession :=
       {| pszCacheFilename := DEFAULT_CACHE_SQLITE;
          pszGeocodingService := "OSM_NOMINATIM";
          pszEmail := None;
          pszApplication := "GDAL 1.10";
          pszQueryTemplate := OSM_NOMINATIM_QUERY;
          pszExtraQueryParameters := None;
          bReadCache := false;
          bWriteCache := false;
          dfDelayBetweenQueries := half;
          poDS := None |};
     dfLastQueryTimeStampOSMNominatim := midday;
     dfLastQueryTimeStampMapQuestNominatim := double_zero;
     env := {| time := midday; took := double_zero;
               reply := Some {| pabyData := Some Mock.paris |} |};
     journal := [] |}.

End Binary64.

(* ================================================================== *)
(** ** Tactics *)
(* ================================================================== *)

(** One step of a run: a case analysis on the innermost scrutinee. *)
Ltac mstep :=
  match goal with
  | |- context [match ?x with _ => _ end] =>
      lazymatch x with
      | context [match _ with _ => _ end] => fail
      | _ => destruct x eqn:?
      end
  end.

Ltac mrun := repeat (cbn; try mstep).

(** The frame conditions once a run has been unfolded. *)
Ltac frame_done :=
  unfold store_frame, cache_frame, session_frame, stamps_kept,
         same_settings, fallback_location;
  cbn; intuition eauto.

(** The cases of a session creation that has succeeded. *)
Ltac session_cases Hc :=
  repeat match type of Hc with
         | context [mbind _ ?x] => destruct x eqn:?; simpl in Hc
         | context [match ?x with _ => _ end] =>
             destruct x eqn:?; simpl in Hc
         end; try discriminate.

(* ================================================================== *)
(** ** Theorems *)
(* ================================================================== *)

Example valid_osm :
  OGRGeocodeHasStringValidFormat
    "http://nominatim.openstreetmap.org/search?q=%s&format=xml&polygon_text=1&addressdetails=1"
  = true.
Proof. reflexivity. Qed.

Lemma format_loop_tokens_aux (s : string) :
  (forall st, bValidFormat st = true ->
     (bFoundPctS (format_loop s st) && bValidFormat (format_loop s st) = true <->
      (placeholder_count s + (if bFoundPctS st then 1 else 0) = 1
       /\ malformed_count s = 0)%nat)) /\
  (forall c st, bValidFormat st = true ->
     (bFoundPctS (format_loop (String c s) st)
        && bValidFormat (format_loop (String c s) st) = true <->
      (placeholder_count (String c s) + (if bFoundPctS st then 1 else 0) = 1
       /\ malformed_count (String c s) = 0)%nat)).
Proof.
  induction s as [|a s [IH1 IH2]].
  - split.
    + intros [v f] Hv; simpl in *; subst. unfold placeholder_count, malformed_count; simpl.
      destruct f; simpl; intuition lia.
    + intros c [v f] Hv; simpl in *; subst.
      unfold placeholder_count, malformed_count; simpl.
      destruct (Ascii.eqb c "%"); simpl; destruct f; simpl; intuition (try lia; try discriminate).
  - split; [apply IH2|].
    intros c [v f] Hv; simpl in Hv; subst v.
    change (format_loop (String c (String a s)) {| bValidFormat := true; bFoundPctS := f |})
      with (if Ascii.eqb c "%" then
              if Ascii.eqb a "%" then
                format_loop s {| bValidFormat := true; bFoundPctS := f |}
              else if Ascii.eqb a "s" then
                if f then {| bValidFormat := false; bFoundPctS := f |}
                else format_loop (String a s)
                       {| bValidFormat := true; bFoundPctS := true |}
              else {| bValidFormat := false; bFoundPctS := f |}
            else format_loop (String a s) {| bValidFormat := true; bFoundPctS := f |}).
    assert (Htok : template_tokens (String c (String a s)) =
              if Ascii.eqb c "%" then
                if Ascii.eqb a "%" then TokPercent :: template_tokens s
                else if Ascii.eqb a "s" then TokPlaceholder :: template_tokens s
                else TokMalformed :: template_tokens (String a s)
              else TokChar c :: template_tokens (String a s)) by reflexivity.
    unfold placeholder_count, malformed_count in *. rewrite Htok. clear Htok.
    destruct (Ascii.eqb c "%") eqn:Ec.
    + destruct (Ascii.eqb a "%") eqn:Ea.
      * rewrite (IH1 {| bValidFormat := true; bFoundPctS := f |} eq_refl).
        reflexivity.
      * destruct (Ascii.eqb a "s") eqn:Es.
        -- destruct f.
           ++ cbn. split; [discriminate|]. intros [H _]. lia.
           ++ rewrite (IH2 a {| bValidFormat := true; bFoundPctS := true |} eq_refl).
              assert (Hs : template_tokens (String a s) =
                           TokChar a :: template_tokens s).
              { cbn [template_tokens]. rewrite Ea. reflexivity. }
              rewrite Hs. cbn. intuition lia.
        -- cbn. rewrite andb_false_r. split; [discriminate|].
           intros [_ H]. lia.
    + rewrite (IH2 a {| bValidFormat := true; bFoundPctS := f |} eq_refl).
      reflexivity.
Qed.

Lemma accepts_iff_well_formed (t : string) :
  OGRGeocodeHasStringValidFormat t = true <-> template_well_formed t.
Proof.
  unfold OGRGeocodeHasStringValidFormat, template_well_formed.
  destruct (format_loop_tokens_aux t) as [Haux _].
  specialize (Haux {| bValidFormat := true; bFoundPctS := false |} eq_refl).
  cbn [bFoundPctS] in Haux. rewrite Nat.add_0_r in Haux.
  rewrite <- Haux.
  destruct (bFoundPctS (format_loop t _)); simpl; tauto.
Qed.

Lemma rejects_iff_not_well_formed (t : string) :
  ~ template_well_formed t -> OGRGeocodeHasStringValidFormat t = false.
Proof.
  intros Hn. destruct (OGRGeocodeHasStringValidFormat t) eqn:E; [|reflexivity].
  apply accepts_iff_well_formed in E. contradiction.
Qed.

Section SessionFacts.
Context `{Double} `{!CPLPort} `{!Backend}.

Lemma created_session_template (papszOptions : list (string * string))
    (s : OGRGeocodingSession) :
  OGRGeocodeCreateSession papszOptions = Some s ->
  OGRGeocodeHasStringValidFormat (pszQueryTemplate s) = true.
Proof.
  unfold OGRGeocodeCreateSession. intros Hc.
  repeat match type of Hc with
         | context [mbind _ ?x] => destruct x; simpl in Hc
         | context [match ?x with _ => _ end] => destruct x eqn:?; simpl in Hc
         end; try discriminate;
  injection Hc as <-; simpl;
  match goal with
  | Hv : negb (OGRGeocodeHasStringValidFormat _) = false |- _ =>
      apply negb_false_iff in Hv; exact Hv
  end.
Qed.

Lemma rejected_template_aborts (papszOptions : list (string * string))
    (t : string) :
  (forall dflt,
     OGRGeocodeGetParameter papszOptions "QUERY_TEMPLATE" dflt = Some t) ->
  OGRGeocodeHasStringValidFormat t = false ->
  OGRGeocodeCreateSession papszOptions = None.
Proof.
  intros Ht Hbad.
  destruct (OGRGeocodeCreateSession papszOptions) as [s|] eqn:Hc;
    [|reflexivity].
  pose proof (created_session_template _ _ Hc) as Hok.
  unfold OGRGeocodeCreateSession in Hc.
  repeat match type of Hc with
         | context [mbind _ ?x] => destruct x; simpl in Hc
         | context [OGRGeocodeGetParameter _ "QUERY_TEMPLATE" ?d] =>
             rewrite (Ht d) in Hc
         | context [match ?x with _ => _ end] => destruct x eqn:?; simpl in Hc
         end; try discriminate;
  injection Hc as <-; simpl in Hok; congruence.
Qed.

(** C5: the validator accepts a template exactly when, read from left to
    right, it holds one [%s] placeholder and every other percent sign is
    part of a [%%] escape; a template with no placeholder, with more than
    one, or with a [%] followed by anything else (or by nothing) is
    rejected; and a session is created only with an accepted template: when
    the template that is set is rejected, creation gives the NULL handle. *)
Theorem validator_accepts_exactly_one_placeholder :
  (forall t, OGRGeocodeHasStringValidFormat t = true
             <-> template_well_formed t) /\
  (forall t, placeholder_count t = 0%nat ->
             OGRGeocodeHasStringValidFormat t = false) /\
  (forall t, (2 <= placeholder_count t)%nat ->
             OGRGeocodeHasStringValidFormat t = false) /\
  (forall t, (1 <= malformed_count t)%nat ->
             OGRGeocodeHasStringValidFormat t = false) /\
  (forall papszOptions s,
     OGRGeocodeCreateSession papszOptions = Some s ->
     OGRGeocodeHasStringValidFormat (pszQueryTemplate s) = true) /\
  (forall papszOptions t,
     (forall dflt,
        OGRGeocodeGetParameter papszOptions "QUERY_TEMPLATE" dflt = Some t) ->
     OGRGeocodeHasStringValidFormat t = false ->
     OGRGeocodeCreateSession papszOptions = None).
Proof.
  split; [exact accepts_iff_well_formed|].
  split; [|split; [|split; [|split]]].
  - intros t Hz. apply rejects_iff_not_well_formed.
    unfold template_well_formed. lia.
  - intros t Hm. apply rejects_iff_not_well_formed.
    unfold template_well_formed. lia.
  - intros t Hb. apply rejects_iff_not_well_formed.
    unfold template_well_formed. lia.
  - exact created_session_template.
  - exact rejected_template_aborts.
Qed.
End SessionFacts.

(* ------------------------------------------------------------------ *)
(** *** The decoder *)
(* ------------------------------------------------------------------ *)

Section DecoderFacts.
Context `{Double} `{!CPLPort} `{!MiniXML} `{!OGRFeatureLib}.

Lemma place_loop_records (psPlace : list CPLXMLNode) :
  forall poLayer,
    papoFeatures (place_loop psPlace poLayer) =
    (papoFeatures poLayer
     ++ records_of (poFDefn poLayer) (List.filter is_place psPlace))%list.
Proof.
  induction psPlace as [|n psNext IH]; intros poLayer; simpl.
  - now rewrite app_nil_r.
  - destruct (is_place n); simpl.
    + rewrite IH. simpl. now rewrite <- app_assoc.
    + apply IH.
Qed.

Lemma records_of_length (places : list CPLXMLNode) :
  forall defn, length (records_of defn places) = length places.
Proof.
  induction places as [|pl rest IH]; intros defn; simpl; [reflexivity|].
  now rewrite IH.
Qed.

(** C8: the decoder gives the NULL layer exactly when the body does not
    parse or the parsed document has no [searchresults] node; in every
    other case it gives the layer the loop over the places builds, whatever
    the children of the places hold. *)
Theorem decoder_fails_only_without_container (pszContent : string) :
  (OGRGeocodeBuildLayer pszContent = None <->
   CPLParseXMLString pszContent = None \/
   exists psRoot, CPLParseXMLString pszContent = Some psRoot /\
                  CPLSearchXMLNode psRoot "=searchresults" = None) /\
  (forall psRoot psSearchResults,
     CPLParseXMLString pszContent = Some psRoot ->
     CPLSearchXMLNode psRoot "=searchresults" = Some psSearchResults ->
     exists poLayer,
       OGRGeocodeBuildLayer pszContent = Some poLayer /\
       papoFeatures poLayer =
       records_of [] (List.filter is_place (psChild psSearchResults))).
Proof.
  unfold OGRGeocodeBuildLayer. split.
  - destruct (CPLParseXMLString pszContent) as [psRoot|].
    + destruct (CPLSearchXMLNode psRoot "=searchresults") eqn:Hs.
      * split; [discriminate|].
        intros [Hp | (r & Hr & Hn)]; [discriminate|].
        injection Hr as <-. congruence.
      * split; [|reflexivity]. intros _. right. now exists psRoot.
    + split; [now left | reflexivity].
  - intros psRoot psSearchResults -> ->.
    eexists. split; [reflexivity|]. now rewrite place_loop_records.
Qed.

(** C9: when the body parses and has its [searchresults] node, the decoder
    gives a layer with one record per child element named [place], in the
    order of the document, each the record of its place; with no such child
    the layer has no record. *)
Theorem decoder_one_record_per_place (pszContent : string)
    (psRoot : list CPLXMLNode) (psSearchResults : CPLXMLNode) :
  CPLParseXMLString pszContent = Some psRoot ->
  CPLSearchXMLNode psRoot "=searchresults" = Some psSearchResults ->
  exists poLayer,
    OGRGeocodeBuildLayer pszContent = Some poLayer /\
    papoFeatures poLayer =
      records_of [] (List.filter is_place (psChild psSearchResults)) /\
    length (papoFeatures poLayer) =
      length (List.filter is_place (psChild psSearchResults)) /\
    (List.filter is_place (psChild psSearchResults) = [] ->
     papoFeatures poLayer = []).
Proof.
  intros Hp Hs. unfold OGRGeocodeBuildLayer. rewrite Hp, Hs.
  eexists. split; [reflexivity|].
  rewrite place_loop_records. simpl.
  split; [reflexivity|]. split; [apply records_of_length|].
  intros ->. reflexivity.
Qed.

Lemma add_fields_skips_geotext (cs : list CPLXMLNode) :
  forall defn ll,
    add_fields (List.filter (fun c => negb (is_geotext c)) cs) defn ll =
    add_fields cs defn ll.
Proof.
  induction cs as [|c cs IH]; intros defn ll; [reflexivity|].
  cbn [List.filter]. unfold is_geotext at 1.
  destruct (String.eqb (pszValue c) "geotext") eqn:E; cbn [negb].
  - cbn [add_fields]. rewrite E. cbn [negb]. rewrite andb_false_r. apply IH.
  - cbn [add_fields]. rewrite E.
    repeat case_match; apply IH.
Qed.

Lemma add_fields_no_geotext_field (cs : list CPLXMLNode) :
  forall defn ll,
    Forall not_geotext_field defn ->
    Forall not_geotext_field (fst (add_fields cs defn ll)).
Proof.
  induction cs as [|c cs IH]; intros defn ll Hd; [exact Hd|].
  cbn [add_fields].
  destruct (String.eqb (pszValue c) "geotext") eqn:E.
  - cbn [negb]. rewrite andb_false_r. now apply IH.
  - assert (Hnew : forall ty,
              Forall not_geotext_field
                (defn ++ [{| fld_name := pszValue c; fld_type := ty |}])).
    { intros ty. apply Forall_app. split; [exact Hd|].
      constructor; [exact E | constructor]. }
    repeat case_match; apply IH; auto.
Qed.

Lemma place_loop_no_geotext_field (psPlace : list CPLXMLNode) :
  forall poLayer,
    Forall not_geotext_field (poFDefn poLayer) ->
    Forall not_geotext_field (poFDefn (place_loop psPlace poLayer)).
Proof.
  induction psPlace as [|n psNext IH]; intros poLayer Hl; [exact Hl|].
  cbn [place_loop]. destruct (is_place n); apply IH; [|exact Hl].
  cbn. now apply add_fields_no_geotext_field.
Qed.

Lemma SetField_geometry (f : OGRFeature) (i : Z) (v : string) :
  poGeometry (SetField f i v) = poGeometry f.
Proof. reflexivity. Qed.

Lemma fill_feature_geometry_kept (cs : list CPLXMLNode) :
  forall defn f,
    geotext_unparseable cs ->
    poGeometry (fill_feature cs defn f) = poGeometry f.
Proof.
  induction cs as [|c cs IH]; intros defn f Hu; [reflexivity|].
  assert (Hu' : geotext_unparseable cs).
  { intros c' v Hin. apply Hu. now right. }
  cbn [fill_feature].
  destruct (0 <=? GetFieldIndex defn (pszValue c)).
  - destruct (CPLGetXMLValue c None None); rewrite IH; auto.
  - destruct (String.eqb (pszValue c) "geotext") eqn:E; [|now apply IH].
    apply String.eqb_eq in E.
    destruct (CPLGetXMLValue c None None) as [v|] eqn:Ev; [|now apply IH].
    rewrite (Hu c v (or_introl eq_refl) E Ev). now apply IH.
Qed.

Lemma fill_feature_skips_geotext (cs : list CPLXMLNode) :
  forall defn f,
    GetFieldIndex defn "geotext" < 0 ->
    geotext_unparseable cs ->
    fill_feature (List.filter (fun c => negb (is_geotext c)) cs) defn f =
    fill_feature cs defn f.
Proof.
  induction cs as [|c cs IH]; intros defn f Hidx Hu; [reflexivity|].
  assert (Hu' : geotext_unparseable cs).
  { intros c' v Hin. apply Hu. now right. }
  cbn [List.filter]. unfold is_geotext at 1.
  destruct (String.eqb (pszValue c) "geotext") eqn:E; cbn [negb].
  - cbn [fill_feature]. rewrite E.
    apply String.eqb_eq in E. rewrite E.
    destruct (0 <=? GetFieldIndex defn "geotext") eqn:Ei; [lia|].
    destruct (CPLGetXMLValue c None None) as [v|] eqn:Ev; [|now apply IH].
    rewrite (Hu c v (or_introl eq_refl) E Ev). now apply IH.
  - cbn [fill_feature]. rewrite E.
    repeat case_match; now apply IH.
Qed.

Lemma GetFieldIndex_from_app (defn more : OGRFeatureDefn) (n : string) :
  forall i, 0 <= i -> 0 <= GetFieldIndex_from defn n i ->
            GetFieldIndex_from (defn ++ more)%list n i =
            GetFieldIndex_from defn n i.
Proof.
  induction defn as [|f defn IH]; intros i Hi Hfound; cbn in *; [lia|].
  destruct (field_name_matches n (fld_name f)); [reflexivity|].
  apply IH; [lia | exact Hfound].
Qed.

Lemma GetFieldIndex_app (defn more : OGRFeatureDefn) (n : string) :
  0 <= GetFieldIndex defn n -> 0 <= GetFieldIndex (defn ++ more)%list n.
Proof.
  unfold GetFieldIndex. intros Hf.
  now rewrite GetFieldIndex_from_app by (lia || assumption).
Qed.

(** Once the schema has a field that answers to [lat], the first pass does
    not read the latitude of a place any more; likewise for [lon]. *)
Lemma add_fields_known_lat (cs : list CPLXMLNode) :
  forall defn ll,
    0 <= GetFieldIndex defn "lat" ->
    bFoundLat (snd (add_fields cs defn ll)) = bFoundLat ll.
Proof.
  induction cs as [|c cs IH]; intros defn ll Hk; [reflexivity|].
  cbn [add_fields].
  destruct (GetFieldIndex defn (pszValue c) <? 0) eqn:Hnew; cbn [andb];
    [|now apply IH].
  destruct (negb (String.eqb (pszValue c) "geotext")); [|now apply IH].
  destruct (String.eqb (pszValue c) "place_rank");
    [rewrite IH; [reflexivity | now apply GetFieldIndex_app]|].
  destruct (String.eqb (pszValue c) "lat") eqn:Elat.
  - apply String.eqb_eq in Elat. rewrite Elat in Hnew.
    apply Z.ltb_lt in Hnew. lia.
  - destruct (String.eqb (pszValue c) "lon");
      (rewrite IH; [|now apply GetFieldIndex_app]);
      [destruct (CPLGetXMLValue c None None)|]; reflexivity.
Qed.

Lemma add_fields_known_lon (cs : list CPLXMLNode) :
  forall defn ll,
    0 <= GetFieldIndex defn "lon" ->
    bFoundLon (snd (add_fields cs defn ll)) = bFoundLon ll.
Proof.
  induction cs as [|c cs IH]; intros defn ll Hk; [reflexivity|].
  cbn [add_fields].
  destruct (GetFieldIndex defn (pszValue c) <? 0) eqn:Hnew; cbn [andb];
    [|now apply IH].
  destruct (negb (String.eqb (pszValue c) "geotext")); [|now apply IH].
  destruct (String.eqb (pszValue c) "place_rank");
    [rewrite IH; [reflexivity | now apply GetFieldIndex_app]|].
  destruct (String.eqb (pszValue c) "lat").
  - rewrite IH; [|now apply GetFieldIndex_app].
    destruct (CPLGetXMLValue c None None); reflexivity.
  - destruct (String.eqb (pszValue c) "lon") eqn:Elon.
    + apply String.eqb_eq in Elon. rewrite Elon in Hnew.
      apply Z.ltb_lt in Hnew. lia.
    + rewrite IH; [reflexivity | now apply GetFieldIndex_app].
Qed.

(** For every instance of the libraries: a place that is reached when the
    schema already has the latitude or the longitude field (any place
    after the first one that had it) gets no point, whatever its own [lat]
    and [lon] hold. *)
Lemma later_places_get_no_point (defn : OGRFeatureDefn)
    (psPlace : CPLXMLNode) :
  0 <= GetFieldIndex defn "lat" \/ 0 <= GetFieldIndex defn "lon" ->
  geotext_unparseable (psChild psPlace) ->
  poGeometry (place_feature defn psPlace) = None.
Proof.
  intros Hk Hu. unfold place_feature.
  pose proof (add_fields_known_lat (psChild psPlace) defn no_LatLon) as Hlat.
  pose proof (add_fields_known_lon (psChild psPlace) defn no_LatLon) as Hlon.
  destruct (add_fields (psChild psPlace) defn no_LatLon) as [d l].
  cbn [snd] in Hlat, Hlon.
  pose proof (fill_feature_geometry_kept (psChild psPlace) d
                (new_OGRFeature d) Hu) as Hg.
  cbn [new_OGRFeature poGeometry] in Hg. cbv zeta.
  cbn [new_OGRFeature]. rewrite Hg.
  destruct Hk as [Hk | Hk].
  - rewrite (Hlat Hk). cbn. rewrite andb_false_r. exact Hg.
  - rewrite (Hlon Hk). cbn. exact Hg.
Qed.

(** C10, as amended: when every geometry text of a place fails to parse, the record of
    the place is still made: the geometry texts change nothing of the
    schema, no field named [geotext] comes to the schema (of the place, and
    of the layer of a whole decode), the geometry of the record is the
    point of the longitude and latitude the first pass has captured, or
    none if it has not captured both, and, as long as the schema has no
    field that answers to the name [geotext], the record is the one of the
    place without its geometry texts. *)
Theorem unparseable_geotext_is_discarded (defn : OGRFeatureDefn)
    (psPlace : CPLXMLNode) :
  geotext_unparseable (psChild psPlace) ->
  let defn' := fst (add_fields (psChild psPlace) defn no_LatLon) in
  let ll := snd (add_fields (psChild psPlace) defn no_LatLon) in
  defn' = fst (add_fields (psChild (without_geotext psPlace)) defn
                          no_LatLon) /\
  (Forall not_geotext_field defn -> Forall not_geotext_field defn') /\
  (forall pszContent poLayer,
     OGRGeocodeBuildLayer pszContent = Some poLayer ->
     Forall not_geotext_field (poFDefn poLayer)) /\
  poGeometry (place_feature defn psPlace) =
    (if bFoundLon ll && bFoundLat ll
     then Some (OGRPoint (dfLon ll) (dfLat ll)) else None) /\
  (GetFieldIndex defn' "geotext" < 0 ->
   place_feature defn psPlace = place_feature defn (without_geotext psPlace)).
Proof.
  intros Hu defn' ll.
  split; [|split; [|split; [|split]]].
  - subst defn'. cbn [without_geotext psChild].
    now rewrite add_fields_skips_geotext.
  - apply add_fields_no_geotext_field.
  - unfold OGRGeocodeBuildLayer. intros pszContent poLayer Hb.
    destruct (CPLParseXMLString pszContent) as [psRoot|]; [|discriminate].
    destruct (CPLSearchXMLNode psRoot "=searchresults"); [|discriminate].
    injection Hb as <-. apply place_loop_no_geotext_field. constructor.
  - unfold place_feature. subst defn' ll.
    destruct (add_fields (psChild psPlace) defn no_LatLon) as [d l].
    cbn [fst snd].
    pose proof (fill_feature_geometry_kept (psChild psPlace) d
                  (new_OGRFeature d) Hu) as Hg.
    cbn [new_OGRFeature poGeometry] in Hg. cbv zeta.
    cbn [new_OGRFeature]. rewrite Hg.
    destruct (bFoundLon l && bFoundLat l); [reflexivity | exact Hg].
  - intros Hidx. unfold place_feature. subst defn'.
    cbn [without_geotext psChild].
    rewrite add_fields_skips_geotext.
    destruct (add_fields (psChild psPlace) defn no_LatLon) as [d l].
    cbn [fst] in Hidx.
    now rewrite fill_feature_skips_geotext.
Qed.
End DecoderFacts.

(* ------------------------------------------------------------------ *)
(** *** The cache and the request executor *)
(* ------------------------------------------------------------------ *)

Section GeocodeFacts.
Context `{Double} `{!CPLPort} `{!Backend} `{!MiniXML} `{!OGRFeatureLib}.

Lemma same_settings_refl (s : OGRGeocodingSession) : same_settings s s.
Proof. unfold same_settings. tauto. Qed.

Lemma same_settings_trans (s1 s2 s3 : OGRGeocodingSession) :
  same_settings s1 s2 -> same_settings s2 s3 -> same_settings s1 s3.
Proof. unfold same_settings. intuition congruence. Qed.

Lemma fallback_location_trans (f1 f2 f3 : string) :
  fallback_location f1 f2 -> fallback_location f2 f3 ->
  fallback_location f1 f3.
Proof.
  unfold fallback_location.
  intros H12 [-> | [-> | [e ->]]]; eauto.
Qed.

Lemma stamps_kept_trans (p1 p2 p3 : Process) :
  stamps_kept p1 p2 -> stamps_kept p2 p3 -> stamps_kept p1 p3.
Proof. unfold stamps_kept. intuition congruence. Qed.

Lemma store_frame_refl (p : Process) : store_frame p p.
Proof.
  unfold store_frame, stamps_kept, fallback_location.
  pose proof (same_settings_refl (hSession p)). tauto.
Qed.

Lemma store_frame_trans (p1 p2 p3 : Process) :
  store_frame p1 p2 -> store_frame p2 p3 -> store_frame p1 p3.
Proof.
  intros (Hs1 & Hj1 & Hg1 & Hf1 & Hd1) (Hs2 & Hj2 & Hg2 & Hf2 & Hd2).
  split; [|split; [|split; [|split]]].
  - apply (stamps_kept_trans _ _ _ Hs1 Hs2).
  - congruence.
  - apply (same_settings_trans _ _ _ Hg1 Hg2).
  - apply (fallback_location_trans _ _ _ Hf1 Hf2).
  - congruence.
Qed.

Lemma open_cache_store_frame (osExt : string) (p : Process) :
  store_frame p (snd (open_cache_store osExt p)).
Proof.
  unfold open_cache_store, bind, get_session, call, ret,
         set_pszCacheFilename.
  mrun; frame_done.
Qed.

Lemma create_cache_store_frame (b : bool) (ds : option OGRDataSource)
    (osExt : string) (p : Process) :
  store_frame p (snd (create_cache_store b ds osExt p)).
Proof.
  unfold create_cache_store, bind, get_session, call, ret,
         set_pszCacheFilename.
  mrun; frame_done.
Qed.

Lemma cache_layer_of_frame (b : bool) (ds : OGRDataSource) (osExt : string)
    (p : Process) :
  stamps_kept p (snd (cache_layer_of b ds osExt p)) /\
  journal (snd (cache_layer_of b ds osExt p)) = journal p /\
  hSession (snd (cache_layer_of b ds osExt p)) = hSession p.
Proof.
  unfold cache_layer_of, bind, get_session, call, ret, stamps_kept.
  mrun; tauto.
Qed.

Lemma bind_eq {A B} (m : M A) (k : A -> M B) (p : Process) :
  bind m k p = k (fst (m p)) (snd (m p)).
Proof. unfold bind. now destruct (m p). Qed.

Lemma session_frame_refl (s : OGRGeocodingSession) : session_frame s s.
Proof.
  unfold session_frame, fallback_location.
  pose proof (same_settings_refl s). tauto.
Qed.

Lemma session_frame_trans (s1 s2 s3 : OGRGeocodingSession) :
  session_frame s1 s2 -> session_frame s2 s3 -> session_frame s1 s3.
Proof.
  intros (Hg1 & Hf1 & Hd1) (Hg2 & Hf2 & Hd2).
  split; [|split].
  - apply (same_settings_trans _ _ _ Hg1 Hg2).
  - apply (fallback_location_trans _ _ _ Hf1 Hf2).
  - intros ds Hds. specialize (Hd1 ds Hds). subst s2.
    apply (Hd2 ds Hds).
Qed.

Lemma cache_frame_refl (p : Process) : cache_frame p p.
Proof.
  unfold cache_frame, stamps_kept.
  pose proof (session_frame_refl (hSession p)). tauto.
Qed.

Lemma cache_frame_trans (p1 p2 p3 : Process) :
  cache_frame p1 p2 -> cache_frame p2 p3 -> cache_frame p1 p3.
Proof.
  intros (Hs1 & Hj1 & Hf1) (Hs2 & Hj2 & Hf2).
  split; [|split].
  - apply (stamps_kept_trans _ _ _ Hs1 Hs2).
  - congruence.
  - apply (session_frame_trans _ _ _ Hf1 Hf2).
Qed.

Lemma OGRGeocodeGetCacheLayer_frame (b : bool) (p : Process) :
  cache_frame p (snd (OGRGeocodeGetCacheLayer b p)).
Proof.
  unfold OGRGeocodeGetCacheLayer. rewrite bind_eq.
  unfold get_session. cbn [fst snd].
  destruct (poDS (hSession p)) as [ds|] eqn:Hds.
  - destruct (cache_layer_of_frame b ds
                (CPLGetExtension (pszCacheFilename (hSession p))) p)
      as (Hs & Hj & Hh).
    split; [exact Hs|]. split; [exact Hj|]. rewrite Hh.
    apply session_frame_refl.
  - rewrite bind_eq.
    pose proof (open_cache_store_frame
                  (CPLGetExtension (pszCacheFilename (hSession p))) p)
      as Ho.
    destruct (open_cache_store _ p) as [[ds1 ext1] p1].
    cbn [fst snd] in *. rewrite bind_eq.
    pose proof (create_cache_store_frame b ds1 ext1 p1) as Hc.
    destruct (create_cache_store b ds1 ext1 p1) as [[ds2 ext2] p2].
    cbn [fst snd] in *.
    pose proof (store_frame_trans _ _ _ Ho Hc)
      as (Hs & Hj & Hg & Hf & Hd).
    destruct ds2 as [ds2|].
    + rewrite bind_eq. unfold set_poDS. cbn [fst snd].
      match goal with
      | |- cache_frame p (snd (cache_layer_of b ds2 ext2 ?q)) =>
          destruct (cache_layer_of_frame b ds2 ext2 q) as (Hs' & Hj' & Hh')
      end.
      split; [|split].
      * apply (stamps_kept_trans _ _ _ Hs). exact Hs'.
      * rewrite Hj'. exact Hj.
      * rewrite Hh'. cbn. split; [|split].
        -- exact Hg.
        -- exact Hf.
        -- intros ds. congruence.
    + cbn. split; [exact Hs|]. split; [exact Hj|].
      split; [exact Hg|]. split; [exact Hf|]. intros ds. congruence.
Qed.

Lemma OGRGeocodeGetFromCache_frame (pszURL : string) (p : Process) :
  stamps_kept p (snd (OGRGeocodeGetFromCache pszURL p)) /\
  journal (snd (OGRGeocodeGetFromCache pszURL p)) =
    (journal p ++ [EvCacheGet pszURL])%list /\
  session_frame (hSession p) (hSession (snd (OGRGeocodeGetFromCache pszURL p))).
Proof.
  unfold OGRGeocodeGetFromCache. rewrite bind_eq.
  unfold record. cbn [fst snd]. rewrite bind_eq.
  pose proof (OGRGeocodeGetCacheLayer_frame false
                (add_event (EvCacheGet pszURL) p)) as (Hs & Hj & Hf).
  destruct (OGRGeocodeGetCacheLayer false _) as [r p1].
  cbn [fst snd] in *.
  assert (Hgoal :
    forall p2, stamps_kept p1 p2 -> journal p2 = journal p1 ->
               hSession p2 = hSession p1 ->
               stamps_kept p p2 /\
               journal p2 = (journal p ++ [EvCacheGet pszURL])%list /\
               session_frame (hSession p) (hSession p2)).
  { intros p2 Hs2 Hj2 Hh2. split; [|split].
    - apply (stamps_kept_trans _ _ _ Hs Hs2).
    - rewrite Hj2, Hj. reflexivity.
    - rewrite Hh2. exact Hf. }
  apply Hgoal; destruct r as [[l i]|]; unfold bind, call, ret, stamps_kept;
    mrun; tauto.
Qed.

Lemma OGRGeocodePutIntoCache_frame (pszURL pszContent : string)
    (p : Process) :
  stamps_kept p (snd (OGRGeocodePutIntoCache pszURL pszContent p)) /\
  journal (snd (OGRGeocodePutIntoCache pszURL pszContent p)) =
    (journal p ++ [EvCachePut pszURL pszContent])%list /\
  session_frame (hSession p)
    (hSession (snd (OGRGeocodePutIntoCache pszURL pszContent p))).
Proof.
  unfold OGRGeocodePutIntoCache. rewrite bind_eq.
  unfold record. cbn [fst snd]. rewrite bind_eq.
  pose proof (OGRGeocodeGetCacheLayer_frame true
                (add_event (EvCachePut pszURL pszContent) p))
    as (Hs & Hj & Hf).
  destruct (OGRGeocodeGetCacheLayer true _) as [r p1].
  cbn [fst snd] in *.
  assert (Hgoal :
    forall p2, stamps_kept p1 p2 -> journal p2 = journal p1 ->
               hSession p2 = hSession p1 ->
               stamps_kept p p2 /\
               journal p2 =
                 (journal p ++ [EvCachePut pszURL pszContent])%list /\
               session_frame (hSession p) (hSession p2)).
  { intros p2 Hs2 Hj2 Hh2. split; [|split].
    - apply (stamps_kept_trans _ _ _ Hs Hs2).
    - rewrite Hj2, Hj. reflexivity.
    - rewrite Hh2. exact Hf. }
  apply Hgoal; destruct r as [[l i]|]; unfold bind, call, ret, stamps_kept;
    mrun; tauto.
Qed.

Lemma fetch_unthrottled (url : string) (opts : list (string * string))
    (p : Process) :
  let res := CPLHTTPFetch url opts (env p) in
  let p' := snd (fetch_throttled None url opts p) in
  fst (fetch_throttled None url opts p) = fst res /\
  journal p' =
    (journal p ++ [EvHTTPFetch url opts (gettimeofday (env p))])%list /\
  stamps_kept p p' /\
  hSession p' = hSession p.
Proof.
  unfold fetch_throttled, http_fetch, bind, call, stamps_kept.
  cbn. destruct (CPLHTTPFetch url opts (env p)); cbn. tauto.
Qed.

Lemma fetch_rate_limited (slot : LastQueryTime) (url : string)
    (opts : list (string * string)) (p : Process) :
  let res := CPLHTTPFetch url opts (env_at_fetch slot p) in
  let p' := snd (fetch_throttled (Some slot) url opts p) in
  fst (fetch_throttled (Some slot) url opts p) = fst res /\
  journal p' =
    (journal p ++ [EvGetTimeOfDay (gettimeofday (env p))]
     ++ sleep_events slot p
     ++ [EvHTTPFetch url opts (gettimeofday (env_at_fetch slot p));
         EvGetTimeOfDay (gettimeofday (snd res))])%list /\
  stamp slot p' = gettimeofday (snd res) /\
  stamp (other_slot slot) p' = stamp (other_slot slot) p /\
  hSession p' = hSession p.
Proof.
  unfold fetch_throttled, http_fetch, now, sleep, read_LastQueryTime,
         write_LastQueryTime, record, get_session, bind, call, ret,
         sleep_events, env_at_fetch, due_time.
  cbn.
  destruct slot; cbn;
    match goal with
    | |- context [double_lt ?a ?b] => destruct (double_lt a b)
    end; cbn;
    match goal with
    | |- context [CPLHTTPFetch ?u ?o ?e] => destruct (CPLHTTPFetch u o e)
    end; cbn; rewrite <- ?app_assoc; cbn; tauto.
Qed.

Lemma geocode_miss_spec (osURL osURLWithEmail : string) (p : Process) :
  let r := fetch_throttled (select_LastQueryTime (hSession p))
             osURLWithEmail (http_options (hSession p)) p in
  let m := geocode_miss osURL osURLWithEmail p in
  fst m = decoded (fst r) /\
  journal (snd m) =
    (journal (snd r)
     ++ put_events (hSession (snd r)) osURL (fst r))%list /\
  stamps_kept (snd r) (snd m) /\
  session_frame (hSession (snd r)) (hSession (snd m)).
Proof.
  cbv zeta. unfold geocode_miss. rewrite bind_eq.
  unfold get_session. cbn [fst snd]. fold (http_options (hSession p)).
  rewrite bind_eq.
  destruct (fetch_throttled _ osURLWithEmail _ p) as [[[[body|]]|] p1];
    cbn [fst snd decoded put_events pabyData].
  - rewrite bind_eq. cbn [fst snd].
    rewrite bind_eq.
    destruct (bWriteCache (hSession p1)).
    + destruct (OGRGeocodePutIntoCache_frame osURL body p1)
        as (Hs & Hj & Hf).
      cbn. tauto.
    + cbn. rewrite app_nil_r. unfold stamps_kept.
      pose proof (session_frame_refl (hSession p1)). tauto.
  - cbn. rewrite app_nil_r. unfold stamps_kept.
    pose proof (session_frame_refl (hSession p1)). tauto.
  - cbn. rewrite app_nil_r. unfold stamps_kept.
    pose proof (session_frame_refl (hSession p1)). tauto.
Qed.

Lemma cached_result_frame (osURL : string) (p : Process) :
  let c := cached_result osURL p in
  stamps_kept p (snd c) /\
  journal (snd c) =
    (journal p
     ++ if bReadCache (hSession p) then [EvCacheGet osURL] else [])%list /\
  session_frame (hSession p) (hSession (snd c)) /\
  (bReadCache (hSession p) = false -> fst c = None) /\
  (bReadCache (hSession p) = true ->
   fst c = fst (OGRGeocodeGetFromCache osURL p)).
Proof.
  cbv zeta. unfold cached_result. rewrite bind_eq.
  unfold get_session. cbn [fst snd].
  destruct (bReadCache (hSession p)).
  - destruct (OGRGeocodeGetFromCache_frame osURL p) as (Hs & Hj & Hf).
    split; [exact Hs|]. split; [exact Hj|]. split; [exact Hf|].
    split; [discriminate | reflexivity].
  - cbn. rewrite app_nil_r. unfold stamps_kept.
    pose proof (session_frame_refl (hSession p)) as Hr.
    split; [tauto|]. split; [reflexivity|]. split; [exact Hr|].
    split; [reflexivity | discriminate].
Qed.

Lemma OGRGeocode_eq (pszQuery : string) (p : Process) :
  let osURL := build_osURL (hSession p) pszQuery in
  let osURLWithEmail := build_osURLWithEmail (hSession p) osURL in
  let c := cached_result osURL p in
  OGRGeocode (Some pszQuery) None p =
  match fst c with
  | None => geocode_miss osURL osURLWithEmail (snd c)
  | Some pszCachedResult => (OGRGeocodeBuildLayer pszCachedResult, snd c)
  end.
Proof.
  cbv zeta. unfold OGRGeocode. rewrite bind_eq.
  unfold get_session. cbn [fst snd]. rewrite bind_eq.
  destruct (cached_result _ p) as [[b|] p1]; reflexivity.
Qed.

Lemma stamp_kept (slot : LastQueryTime) (p p' : Process) :
  stamps_kept p p' -> stamp slot p' = stamp slot p.
Proof. intros [Ho Hm]. destruct slot; assumption. Qed.

Lemma select_same_settings (s s' : OGRGeocodingSession) :
  same_settings s s' -> select_LastQueryTime s' = select_LastQueryTime s.
Proof.
  intros (Hsvc & _). unfold select_LastQueryTime. now rewrite Hsvc.
Qed.

Lemma put_events_quiet (s : OGRGeocodingSession) (key url : string)
    (r : option CPLHTTPResult) :
  Forall (url_discipline key url) (put_events s key r) /\
  Forall (fun ev => is_timing ev = false) (put_events s key r) /\
  fetch_count (put_events s key r) = 0%nat.
Proof.
  unfold put_events.
  destruct r as [[[body|]]|]; cbn; try destruct (bWriteCache s); cbn;
    repeat split; repeat constructor.
Qed.

(** A request that is not answered from the cache and goes to a throttled
    service. *)
Lemma throttled_call_shape (p : Process) (pszQuery : string)
    (slot : LastQueryTime) :
  let osURL := build_osURL (hSession p) pszQuery in
  let osURLWithEmail := build_osURLWithEmail (hSession p) osURL in
  let c := cached_result osURL p in
  let r := OGRGeocode (Some pszQuery) None p in
  fst c = None ->
  select_LastQueryTime (hSession p) = Some slot ->
  let opts := http_options (hSession (snd c)) in
  let tend :=
    gettimeofday
      (snd (CPLHTTPFetch osURLWithEmail opts (env_at_fetch slot (snd c)))) in
  exists puts,
    journal (snd r) =
      (journal (snd c)
       ++ [EvGetTimeOfDay (gettimeofday (env (snd c)))]
       ++ sleep_events slot (snd c)
       ++ [EvHTTPFetch osURLWithEmail opts
             (gettimeofday (env_at_fetch slot (snd c)));
           EvGetTimeOfDay tend]
       ++ puts)%list /\
    Forall (url_discipline osURL osURLWithEmail) puts /\
    fetch_count puts = 0%nat /\
    stamp slot (snd r) = tend /\
    stamp (other_slot slot) (snd r) = stamp (other_slot slot) p /\
    due_time slot (snd c) = due_time slot p.
Proof.
  intros osURL osURLWithEmail c r Hmiss Hslot opts tend. subst r opts tend.
  rewrite OGRGeocode_eq. fold osURL osURLWithEmail c. rewrite Hmiss.
  destruct (cached_result_frame osURL p) as (Hs & Hj & Hf & _).
  fold c in Hs, Hj, Hf. destruct Hf as (Hset & _).
  destruct (geocode_miss_spec osURL osURLWithEmail (snd c))
    as (_ & Hjm & Hsm & _).
  rewrite (select_same_settings _ _ Hset), Hslot in Hjm, Hsm.
  destruct (fetch_rate_limited slot osURLWithEmail
              (http_options (hSession (snd c))) (snd c))
    as (_ & Hjf & Hst & Hso & Hh).
  cbv zeta in Hjf, Hst, Hso, Hh.
  set (f := fetch_throttled (Some slot) osURLWithEmail
              (http_options (hSession (snd c))) (snd c)) in *.
  exists (put_events (hSession (snd f)) osURL (fst f)).
  split; [|split; [|split; [|split; [|split]]]].
  - rewrite Hjm, Hjf. rewrite <- !app_assoc. reflexivity.
  - apply put_events_quiet.
  - apply (put_events_quiet _ osURL osURLWithEmail).
  - rewrite (stamp_kept _ _ _ Hsm). exact Hst.
  - rewrite (stamp_kept _ _ _ Hsm), Hso. apply (stamp_kept _ _ _ Hs).
  - unfold due_time. rewrite (stamp_kept _ _ _ Hs).
    destruct Hset as (_ & _ & _ & _ & _ & _ & _ & ->). reflexivity.
Qed.

(** Where the reading of the doubles is faithful, the fetch is sent no
    earlier than the time stamp plus the delay. *)
Lemma env_at_fetch_due (val : double -> Q) (slot : LastQueryTime)
    (p : Process) :
  faithful_at val (stamp slot p) (dfDelayBetweenQueries (hSession p))
              (env p) ->
  (val (stamp slot p) + val (dfDelayBetweenQueries (hSession p))
   <= val (gettimeofday (env_at_fetch slot p)))%Q.
Proof.
  unfold faithful_at, env_at_fetch, due_time. cbv zeta.
  intros (Hsum & Hle & Hlt).
  destruct (double_lt (gettimeofday (env p))
              (double_add (stamp slot p)
                 (dfDelayBetweenQueries (hSession p)))).
  - destruct (Hlt eq_refl) as (Hdiff & Hsleep). lra.
  - specialize (Hle eq_refl). lra.
Qed.

(** A request that is not answered from the cache and goes to a service
    that is not throttled. *)
Lemma unthrottled_call_shape (p : Process) (pszQuery : string) :
  let osURL := build_osURL (hSession p) pszQuery in
  let osURLWithEmail := build_osURLWithEmail (hSession p) osURL in
  let c := cached_result osURL p in
  let r := OGRGeocode (Some pszQuery) None p in
  fst c = None ->
  select_LastQueryTime (hSession p) = None ->
  exists opts start puts,
    journal (snd r) =
      (journal (snd c) ++ [EvHTTPFetch osURLWithEmail opts start]
       ++ puts)%list /\
    Forall (url_discipline osURL osURLWithEmail) puts /\
    Forall (fun ev => is_timing ev = false) puts /\
    fetch_count puts = 0%nat /\
    stamps_kept p (snd r).
Proof.
  intros osURL osURLWithEmail c r Hmiss Hslot. subst r.
  rewrite OGRGeocode_eq. fold osURL osURLWithEmail c. rewrite Hmiss.
  destruct (cached_result_frame osURL p) as (Hs & Hj & Hf & _).
  fold c in Hs, Hj, Hf. destruct Hf as (Hset & _).
  destruct (geocode_miss_spec osURL osURLWithEmail (snd c))
    as (_ & Hjm & Hsm & _).
  rewrite (select_same_settings _ _ Hset), Hslot in Hjm, Hsm.
  destruct (fetch_unthrottled osURLWithEmail
              (http_options (hSession (snd c))) (snd c))
    as (_ & Hjf & Hsf & Hh).
  cbv zeta in Hjf, Hsf, Hh.
  set (f := fetch_throttled None osURLWithEmail
              (http_options (hSession (snd c))) (snd c)) in *.
  eexists _, _, (put_events (hSession (snd f)) osURL (fst f)).
  split; [|split; [|split; [|split]]].
  - rewrite Hjm, Hjf. rewrite <- !app_assoc. reflexivity.
  - apply put_events_quiet.
  - apply (put_events_quiet _ osURL osURLWithEmail).
  - apply (put_events_quiet _ osURL osURLWithEmail).
  - apply (stamps_kept_trans _ _ _ Hs).
    apply (stamps_kept_trans _ _ _ Hsf). exact Hsm.
Qed.

(** A request that is answered from the cache. *)
Lemma cached_call_shape (p : Process) (pszQuery pszCachedResult : string) :
  let osURL := build_osURL (hSession p) pszQuery in
  let r := OGRGeocode (Some pszQuery) None p in
  fst (cached_result osURL p) = Some pszCachedResult ->
  fst r = OGRGeocodeBuildLayer pszCachedResult /\
  journal (snd r) = (journal p ++ [EvCacheGet osURL])%list /\
  stamps_kept p (snd r).
Proof.
  intros osURL r Hhit. subst r. rewrite OGRGeocode_eq. fold osURL.
  rewrite Hhit. cbn [fst snd].
  destruct (cached_result_frame osURL p) as (Hs & Hj & _ & Hoff & _).
  split; [reflexivity|]. split; [|exact Hs].
  rewrite Hj. destruct (bReadCache (hSession p)); [reflexivity|].
  rewrite Hoff in Hhit by reflexivity. discriminate.
Qed.

Lemma lookup_events_disciplined (b : bool) (key url : string) :
  Forall (url_discipline key url) (if b then [EvCacheGet key] else []) /\
  Forall (fun ev => is_timing ev = false)
         (if b then [EvCacheGet key] else []) /\
  fetch_count (if b then [EvCacheGet key] else []) = 0%nat.
Proof. destruct b; cbn; repeat split; repeat constructor. Qed.

Lemma fetch_throttled_session (slot : option LastQueryTime) (url : string)
    (opts : list (string * string)) (p : Process) :
  hSession (snd (fetch_throttled slot url opts p)) = hSession p.
Proof.
  destruct slot as [slot|].
  - apply (fetch_rate_limited slot url opts p).
  - apply (fetch_unthrottled url opts p).
Qed.



(** C2: the cache is asked and filled under the url without the email and
    the transport is sent the url with it: every [OGRGeocodeGetFromCache]
    and [OGRGeocodePutIntoCache] of a call is on [osURL] and every fetch on
    [osURLWithEmail], which is [osURL] followed by the escaped email for
    the OSM_NOMINATIM service with an email set, and [osURL] itself
    otherwise; [osURL] is made of the template, the query and the extra
    parameters only, so that sessions that differ in the email have the
    same key. *)
Theorem cache_key_is_the_url_without_email (p : Process)
    (pszQuery : string) :
  let s := hSession p in
  let osURL := build_osURL s pszQuery in
  let osURLWithEmail := build_osURLWithEmail s osURL in
  (exists evs,
     journal (snd (OGRGeocode (Some pszQuery) None p)) =
       (journal p ++ evs)%list /\
     Forall (url_discipline osURL osURLWithEmail) evs) /\
  (forall email,
     EQUAL (pszGeocodingService s) "OSM_NOMINATIM" = true ->
     pszEmail s = Some email ->
     osURLWithEmail = osURL ++ "&email=" ++ CPLEscapeString email CPLES_URL) /\
  (EQUAL (pszGeocodingService s) "OSM_NOMINATIM" = false \/
   pszEmail s = None -> osURLWithEmail = osURL) /\
  (forall s' : OGRGeocodingSession,
     pszQueryTemplate s' = pszQueryTemplate s ->
     pszExtraQueryParameters s' = pszExtraQueryParameters s ->
     build_osURL s' pszQuery = osURL).
Proof.
  intros s osURL osURLWithEmail. subst s.
  split; [|split; [|split]].
  - destruct (cached_result_frame osURL p) as (_ & Hj & _).
    cbv zeta in Hj.
    destruct (lookup_events_disciplined (bReadCache (hSession p)) osURL
                osURLWithEmail) as (Hl & _).
    destruct (fst (cached_result osURL p)) as [body|] eqn:Hc.
    + destruct (cached_call_shape p pszQuery body Hc) as (_ & Hjh & _).
      eexists. split; [exact Hjh|]. repeat constructor.
    + destruct (select_LastQueryTime (hSession p)) as [slot|] eqn:Hsel.
      * destruct (throttled_call_shape p pszQuery slot Hc Hsel)
          as (puts & Hjt & Hp & _).
        eexists. split.
        -- rewrite Hjt. fold osURL. rewrite Hj. rewrite <- app_assoc.
           reflexivity.
        -- apply Forall_app. split; [exact Hl|].
           constructor; [exact I|].
           apply Forall_app. split.
           ++ unfold sleep_events.
              destruct (double_lt _ _); repeat constructor.
           ++ constructor; [reflexivity|]. constructor; [exact I|].
              exact Hp.
      * destruct (unthrottled_call_shape p pszQuery Hc Hsel)
          as (opts & start & puts & Hju & Hp & _).
        eexists. split.
        -- rewrite Hju. fold osURL. rewrite Hj. rewrite <- app_assoc.
           reflexivity.
        -- apply Forall_app. split; [exact Hl|].
           constructor; [reflexivity | exact Hp].
  - intros email Hsvc Hem. subst osURLWithEmail.
    unfold build_osURLWithEmail. now rewrite Hsvc, Hem.
  - intros Hno. subst osURLWithEmail. unfold build_osURLWithEmail.
    destruct (EQUAL (pszGeocodingService (hSession p)) "OSM_NOMINATIM");
      [|reflexivity].
    destruct Hno as [Hno | Hno]; [discriminate|]. now rewrite Hno.
  - intros s' Ht He. subst osURL. unfold build_osURL. now rewrite Ht, He.
Qed.


(** C6, as amended: a geocode call changes none of the settings of the
    session (service, email, application, template, extra parameters, the
    two cache flags, the delay); the cache location is kept or switched to
    the CSV default or to an in-memory location; and once the session has
    its store, a call changes nothing of it. *)
Theorem geocode_keeps_the_settings (p : Process)
    (pszQuery : option string)
    (papszStructuredQuery : option (list (string * string))) :
  let s := hSession p in
  let s' := hSession (snd (OGRGeocode pszQuery papszStructuredQuery p)) in
  same_settings s s' /\
  fallback_location (pszCacheFilename s) (pszCacheFilename s') /\
  (forall ds, poDS s = Some ds -> s' = s).
Proof.
  cbv zeta. change (session_frame (hSession p)
     (hSession (snd (OGRGeocode pszQuery papszStructuredQuery p)))).
  destruct pszQuery as [q|], papszStructuredQuery as [sq|];
    try apply session_frame_refl.
  rewrite OGRGeocode_eq.
  destruct (cached_result_frame (build_osURL (hSession p) q) p)
    as (_ & _ & Hf & _).
  cbv zeta in Hf.
  destruct (fst (cached_result _ p)); [exact Hf|].
  eapply session_frame_trans; [exact Hf|].
  match goal with
  | |- context [geocode_miss ?k ?u ?p1] =>
      destruct (geocode_miss_spec k u p1) as (_ & _ & _ & Hm)
  end.
  cbv zeta in Hm. rewrite fetch_throttled_session in Hm. exact Hm.
Qed.

Lemma select_LastQueryTime_cases (s : OGRGeocodingSession) :
  (select_LastQueryTime s = Some OSMNominatim <->
   EQUAL (pszGeocodingService s) "OSM_NOMINATIM" = true) /\
  (select_LastQueryTime s = Some MapQuestNominatim <->
   EQUAL (pszGeocodingService s) "OSM_NOMINATIM" = false /\
   EQUAL (pszGeocodingService s) "MAPQUEST_NOMINATIM" = true) /\
  (select_LastQueryTime s = None <->
   EQUAL (pszGeocodingService s) "OSM_NOMINATIM" = false /\
   EQUAL (pszGeocodingService s) "MAPQUEST_NOMINATIM" = false).
Proof.
  unfold select_LastQueryTime.
  destruct (EQUAL (pszGeocodingService s) "OSM_NOMINATIM");
    destruct (EQUAL (pszGeocodingService s) "MAPQUEST_NOMINATIM");
    intuition (discriminate || auto).
Qed.

(** C4, as amended: a call that is not answered from the cache and goes to
    one of the two throttled services reads the clock, sleeps exactly when
    the clock is found less than the sum of the time stamp of the service
    and the delay of the session, as the double addition gives it, asking
    for that sum less the reading of the clock, as the double subtraction
    gives it, sends its fetch, reads the clock again and leaves that
    reading as the time stamp of the service.  Read as rational numbers in
    a way that is faithful at the call (the comparison agrees with the
    numbers, neither the sum nor the difference is rounded down, the sleep
    lasts at least as long as asked), the fetch starts no earlier than the
    time stamp it found plus the delay; so the next such fetch to the service, by a call
    that finds the time stamp this one has left, starts at least the delay
    of its session after this one has ended. *)
Theorem rate_limiter_spaces_the_fetches (p : Process) (pszQuery : string)
    (slot : LastQueryTime) :
  let s := hSession p in
  let osURL := build_osURL s pszQuery in
  let osURLWithEmail := build_osURLWithEmail s osURL in
  let p0 := snd (cached_result osURL p) in
  let r := OGRGeocode (Some pszQuery) None p in
  fst (cached_result osURL p) = None ->
  select_LastQueryTime s = Some slot ->
  let due := double_add (stamp slot p) (dfDelayBetweenQueries s) in
  let dfCurrentTime := gettimeofday (env p0) in
  let opts := http_options (hSession p0) in
  let start := gettimeofday (env_at_fetch slot p0) in
  let tend :=
    gettimeofday
      (snd (CPLHTTPFetch osURLWithEmail opts (env_at_fetch slot p0))) in
  (exists puts,
     journal (snd r) =
       (journal p0
        ++ [EvGetTimeOfDay dfCurrentTime]
        ++ (if double_lt dfCurrentTime due
            then [EvSleep (double_sub due dfCurrentTime)] else [])
        ++ [EvHTTPFetch osURLWithEmail opts start; EvGetTimeOfDay tend]
        ++ puts)%list /\
     fetch_count puts = 0%nat) /\
  stamp slot (snd r) = tend /\
  (forall val : double -> Q,
     faithful_at val (stamp slot p) (dfDelayBetweenQueries s) (env p0) ->
     (val (stamp slot p) + val (dfDelayBetweenQueries s) <= val start)%Q) /\
  (forall p2 pszQuery2,
     stamp slot p2 = stamp slot (snd r) ->
     let s2 := hSession p2 in
     let osURL2 := build_osURL s2 pszQuery2 in
     let p02 := snd (cached_result osURL2 p2) in
     fst (cached_result osURL2 p2) = None ->
     select_LastQueryTime s2 = Some slot ->
     exists pre post opts2,
       journal (snd (OGRGeocode (Some pszQuery2) None p2)) =
         (pre
          ++ [EvHTTPFetch (build_osURLWithEmail s2 osURL2) opts2
                (gettimeofday (env_at_fetch slot p02))]
          ++ post)%list /\
       forall val : double -> Q,
         faithful_at val tend (dfDelayBetweenQueries s2) (env p02) ->
         (val tend + val (dfDelayBetweenQueries s2)
          <= val (gettimeofday (env_at_fetch slot p02)))%Q).
Proof.
  intros s osURL osURLWithEmail p0 r Hmiss Hslot due dfCurrentTime
         opts start tend.
  subst s.
  destruct (throttled_call_shape p pszQuery slot Hmiss Hslot)
    as (puts & Hj & _ & Hq & Hst & _ & Hdue).
  fold osURL osURLWithEmail p0 in Hj, Hst, Hdue.
  fold opts in Hj, Hst. fold tend in Hj, Hst. fold r in Hj, Hst.
  assert (Hdue' : due_time slot p0 = due) by exact Hdue.
  destruct (cached_result_frame osURL p) as (Hs0 & _ & (Hset0 & _) & _).
  fold p0 in Hs0, Hset0.
  split; [|split; [|split]].
  - exists puts. split; [|exact Hq].
    rewrite Hj. unfold sleep_events. rewrite Hdue'. reflexivity.
  - exact Hst.
  - intros val Hexact. subst start.
    pose proof (env_at_fetch_due val slot p0) as Hgap.
    rewrite (stamp_kept _ _ _ Hs0) in Hgap.
    destruct Hset0 as (_ & _ & _ & _ & _ & _ & _ & Hd).
    rewrite Hd in Hgap. exact (Hgap Hexact).
  - intros p2 pszQuery2 Hstamp s2 osURL2 p02 Hmiss2 Hslot2. subst s2.
    destruct (throttled_call_shape p2 pszQuery2 slot Hmiss2 Hslot2)
      as (puts2 & Hj2 & _ & _ & _ & _ & _).
    fold osURL2 p02 in Hj2.
    destruct (cached_result_frame osURL2 p2) as (Hs2 & _ & (Hset2 & _) & _).
    fold p02 in Hs2, Hset2.
    eexists _, _, _. split.
    + rewrite Hj2. rewrite app_assoc. rewrite (app_assoc _ (sleep_events _ _)).
      change ([?a; ?b] ++ puts2)%list with ([a] ++ (b :: puts2))%list.
      reflexivity.
    + intros val Hexact.
      pose proof (env_at_fetch_due val slot p02) as Hgap.
      rewrite (stamp_kept _ _ _ Hs2), Hstamp, Hst in Hgap.
      destruct Hset2 as (_ & _ & _ & _ & _ & _ & _ & Hd).
      rewrite Hd in Hgap. exact (Hgap Hexact).
Qed.

(** C7: [pdfLastQueryTime] is set for OSM_NOMINATIM and for
    MAPQUEST_NOMINATIM, each to its own time stamp, and NULL for any other
    service.  A call for another service leaves both time stamps as they
    are and neither reads the clock nor sleeps, whatever the delay of the
    session, and sends exactly one fetch when it is not answered from the
    cache.  A call for one of the two that is not answered from the cache
    sends one fetch, reads the clock and leaves the reading taken after
    the fetch as the time stamp of its service, the other time stamp as it
    is. *)
Theorem only_the_two_presets_are_throttled (p : Process)
    (pszQuery : string) :
  let s := hSession p in
  let osURL := build_osURL s pszQuery in
  let osURLWithEmail := build_osURLWithEmail s osURL in
  let p0 := snd (cached_result osURL p) in
  let r := OGRGeocode (Some pszQuery) None p in
  ((select_LastQueryTime s = Some OSMNominatim <->
    EQUAL (pszGeocodingService s) "OSM_NOMINATIM" = true) /\
   (select_LastQueryTime s = Some MapQuestNominatim <->
    EQUAL (pszGeocodingService s) "OSM_NOMINATIM" = false /\
    EQUAL (pszGeocodingService s) "MAPQUEST_NOMINATIM" = true) /\
   (select_LastQueryTime s = None <->
    EQUAL (pszGeocodingService s) "OSM_NOMINATIM" = false /\
    EQUAL (pszGeocodingService s) "MAPQUEST_NOMINATIM" = false)) /\
  (select_LastQueryTime s = None ->
   stamps_kept p (snd r) /\
   exists evs,
     journal (snd r) = (journal p ++ evs)%list /\
     Forall (fun ev => is_timing ev = false) evs /\
     (fst (cached_result osURL p) = None -> fetch_count evs = 1%nat)) /\
  (forall slot,
     select_LastQueryTime s = Some slot ->
     fst (cached_result osURL p) = None ->
     stamp slot (snd r) =
       gettimeofday
         (snd (CPLHTTPFetch osURLWithEmail (http_options (hSession p0))
                 (env_at_fetch slot p0))) /\
     stamp (other_slot slot) (snd r) = stamp (other_slot slot) p /\
     exists evs,
       journal (snd r) = (journal p ++ evs)%list /\
       In (EvGetTimeOfDay (stamp slot (snd r))) evs /\
       fetch_count evs = 1%nat).
Proof.
  intros s osURL osURLWithEmail p0 r. subst s.
  split; [apply select_LastQueryTime_cases|].
  destruct (cached_result_frame osURL p) as (Hs & Hj & _).
  cbv zeta in Hs, Hj.
  destruct (lookup_events_disciplined (bReadCache (hSession p)) osURL
              osURLWithEmail) as (_ & Hlt & Hlf).
  unfold fetch_count in *.
  split.
  - intros Hsel.
    destruct (fst (cached_result osURL p)) as [body|] eqn:Hc.
    + destruct (cached_call_shape p pszQuery body Hc) as (_ & Hjh & Hsh).
      split; [exact Hsh|]. eexists. split; [exact Hjh|].
      split; [repeat constructor | discriminate].
    + destruct (unthrottled_call_shape p pszQuery Hc Hsel)
        as (opts & start & puts & Hju & _ & Hpt & Hpf & Hsu).
      split; [exact Hsu|]. eexists. split; [|split].
      * subst r. rewrite Hju. fold osURL. rewrite Hj.
        rewrite <- app_assoc. reflexivity.
      * apply Forall_app. split; [exact Hlt|].
        constructor; [reflexivity | exact Hpt].
      * intros _. rewrite List.filter_app, length_app, Hlf.
        unfold fetch_count in Hpf. cbn. now rewrite Hpf.
  - intros slot Hsel Hc.
    destruct (throttled_call_shape p pszQuery slot Hc Hsel)
      as (puts & Hjt & _ & Hpf & Hst & Hso & _).
    fold osURL osURLWithEmail p0 r in Hjt, Hst, Hso.
    split; [exact Hst|]. split; [exact Hso|].
    eexists. split; [|split].
    + rewrite Hjt. subst p0. rewrite Hj. rewrite <- app_assoc. reflexivity.
    + rewrite Hst. apply in_or_app. right. cbn [app]. apply in_cons.
      apply in_or_app. right. apply in_cons. apply in_eq.
    + rewrite List.filter_app, length_app, Hlf.
      cbn [app List.filter is_fetch length].
      rewrite List.filter_app, length_app.
      unfold sleep_events. unfold fetch_count in Hpf.
      destruct (double_lt _ _); cbn; now rewrite Hpf.
Qed.
End GeocodeFacts.

(* ------------------------------------------------------------------ *)
(** *** More on the decoder: the schema and the records *)
(* ------------------------------------------------------------------ *)

Section MoreDecoderFacts.
Context `{Double} `{!CPLPort} `{!MiniXML} `{!OGRFeatureLib}.

Lemma GetFieldIndex_from_range (defn : OGRFeatureDefn) (n : string) :
  forall i,
    GetFieldIndex_from defn n i = -1 \/
    i <= GetFieldIndex_from defn n i < i + Z.of_nat (length defn).
Proof.
  induction defn as [|f defn IH]; intros i; cbn [GetFieldIndex_from length];
    [now left|].
  destruct (field_name_matches n (fld_name f)); [right; lia|].
  destruct (IH (i + 1)) as [-> | Hr]; [now left | right; lia].
Qed.

Lemma GetFieldIndex_range (defn : OGRFeatureDefn) (n : string) :
  -1 <= GetFieldIndex defn n < Z.of_nat (length defn).
Proof.
  unfold GetFieldIndex.
  destruct (GetFieldIndex_from_range defn n 0) as [-> | Hr]; lia.
Qed.

Lemma GetFieldIndex_from_found (defn : OGRFeatureDefn) (n : string)
    (f : OGRFieldDefn) :
  In f defn -> field_name_matches n (fld_name f) = true ->
  forall i, i <= GetFieldIndex_from defn n i.
Proof.
  induction defn as [|g defn IH]; intros Hin Hm i; [destruct Hin|].
  cbn [GetFieldIndex_from].
  destruct (field_name_matches n (fld_name g)) eqn:Hg; [lia|].
  destruct Hin as [-> | Hin]; [congruence|].
  specialize (IH Hin Hm (i + 1)). lia.
Qed.

(** What one step of the first pass does to the schema: nothing, or one
    field of the name of the child, of the type of that name, for a name
    the schema does not find and that is not [geotext]. *)
Lemma add_fields_step (c : CPLXMLNode) (psNext : list CPLXMLNode)
    (defn : OGRFeatureDefn) (ll : LatLon) :
  exists ll',
    add_fields (c :: psNext) defn ll = add_fields psNext defn ll' \/
    (GetFieldIndex defn (pszValue c) < 0 /\
     String.eqb (pszValue c) "geotext" = false /\
     add_fields (c :: psNext) defn ll =
     add_fields psNext
       (defn ++ [{| fld_name := pszValue c;
                    fld_type := type_of_name (pszValue c) |}])%list ll').
Proof.
  cbn [add_fields]. unfold type_of_name.
  destruct (GetFieldIndex defn (pszValue c) <? 0) eqn:Hnew; cbn [andb];
    [|exists ll; now left].
  apply Z.ltb_lt in Hnew.
  destruct (String.eqb (pszValue c) "geotext") eqn:Eg; cbn [negb];
    [exists ll; now left|].
  destruct (String.eqb (pszValue c) "place_rank");
    [exists ll; right; auto|].
  destruct (String.eqb (pszValue c) "lat"); [eexists; right; eauto|].
  destruct (String.eqb (pszValue c) "lon"); eexists; right; eauto.
Qed.

(** An invariant of the schema that holds for the empty schema and that
    the adding of a field the schema does not find keeps, holds after the
    first pass. *)
Lemma add_fields_invariant (P : OGRFeatureDefn -> Prop) :
  (forall defn n,
     P defn -> GetFieldIndex defn n < 0 -> String.eqb n "geotext" = false ->
     P (defn ++ [{| fld_name := n; fld_type := type_of_name n |}])%list) ->
  forall cs defn ll, P defn -> P (fst (add_fields cs defn ll)).
Proof.
  intros Hstep cs. induction cs as [|c cs IH]; intros defn ll Hd; [exact Hd|].
  destruct (add_fields_step c cs defn ll) as (ll' & [-> | (Hn & Hg & ->)]).
  - now apply IH.
  - apply IH. now apply Hstep.
Qed.

Lemma place_loop_invariant (P : OGRFeatureDefn -> Prop) :
  (forall defn n,
     P defn -> GetFieldIndex defn n < 0 -> String.eqb n "geotext" = false ->
     P (defn ++ [{| fld_name := n; fld_type := type_of_name n |}])%list) ->
  forall psPlace poLayer,
    P (poFDefn poLayer) -> P (poFDefn (place_loop psPlace poLayer)).
Proof.
  intros Hstep psPlace.
  induction psPlace as [|n psNext IH]; intros poLayer Hl; [exact Hl|].
  cbn [place_loop]. destruct (is_place n); apply IH; [|exact Hl].
  cbn [build_place poFDefn]. now apply add_fields_invariant.
Qed.

Lemma decoded_schema_invariant (P : OGRFeatureDefn -> Prop) :
  P [] ->
  (forall defn n,
     P defn -> GetFieldIndex defn n < 0 -> String.eqb n "geotext" = false ->
     P (defn ++ [{| fld_name := n; fld_type := type_of_name n |}])%list) ->
  forall pszContent poLayer,
    OGRGeocodeBuildLayer pszContent = Some poLayer -> P (poFDefn poLayer).
Proof.
  intros Hnil Hstep pszContent poLayer Hb. unfold OGRGeocodeBuildLayer in Hb.
  destruct (CPLParseXMLString pszContent) as [psRoot|]; [|discriminate].
  destruct (CPLSearchXMLNode psRoot "=searchresults"); [|discriminate].
  injection Hb as <-. now apply place_loop_invariant.
Qed.

(** X1: the schema of a decoded layer types its fields by their names alone:
    [place_rank] is an integer, [lat] and [lon] are reals, every other
    field is a string. *)
Theorem decoded_fields_typed_by_name (pszContent : string)
    (poLayer : OGRMemLayer) :
  OGRGeocodeBuildLayer pszContent = Some poLayer ->
  Forall well_typed_field (poFDefn poLayer).
Proof.
  apply (decoded_schema_invariant (Forall well_typed_field)).
  - constructor.
  - intros defn n Hd _ _. apply Forall_app. split; [exact Hd|].
    constructor; [reflexivity | constructor].
Qed.

(** X2: with a comparison of names that finds a name equal to itself, no two
    fields of a decoded layer have the same name. *)
Theorem decoded_field_names_distinct (pszContent : string)
    (poLayer : OGRMemLayer) :
  (forall n, field_name_matches n n = true) ->
  OGRGeocodeBuildLayer pszContent = Some poLayer ->
  List.NoDup (map fld_name (poFDefn poLayer)).
Proof.
  intros Hrefl.
  apply (decoded_schema_invariant
           (fun defn => List.NoDup (map fld_name defn))).
  - constructor.
  - intros defn n Hd Hnew _. rewrite map_app. cbn [map fld_name].
    apply List.NoDup_app; [exact Hd | repeat constructor; intros [] |].
    intros a Ha [Hn | []]. subst a. apply List.in_map_iff in Ha.
    destruct Ha as (f & Hf & Hin).
    pose proof (GetFieldIndex_from_found defn n f Hin) as Hfound.
    rewrite Hf in Hfound. specialize (Hfound (Hrefl n) 0).
    unfold GetFieldIndex in Hnew. lia.
Qed.

Lemma add_fields_appends (cs : list CPLXMLNode) (defn : OGRFeatureDefn)
    (ll : LatLon) :
  exists more, fst (add_fields cs defn ll) = (defn ++ more)%list.
Proof.
  apply (add_fields_invariant (fun d => exists more, d = (defn ++ more)%list)).
  - intros d n [more ->] _ _. eexists. now rewrite <- app_assoc.
  - exists []. now rewrite app_nil_r.
Qed.

(** X3: the loop over the places only appends to the schema: the fields the
    layer has keep their place and their type, and a name the schema finds
    is found at the same index after any number of places. *)
Theorem schema_only_grows (psPlace : list CPLXMLNode)
    (poLayer : OGRMemLayer) :
  exists more,
    poFDefn (place_loop psPlace poLayer) = (poFDefn poLayer ++ more)%list /\
    forall n,
      0 <= GetFieldIndex (poFDefn poLayer) n ->
      GetFieldIndex (poFDefn (place_loop psPlace poLayer)) n =
      GetFieldIndex (poFDefn poLayer) n.
Proof.
  assert (Hgrow : exists more,
            poFDefn (place_loop psPlace poLayer) =
            (poFDefn poLayer ++ more)%list).
  { apply (place_loop_invariant
             (fun d => exists more, d = (poFDefn poLayer ++ more)%list)).
    - intros d n [more ->] _ _. eexists. now rewrite <- app_assoc.
    - exists []. now rewrite app_nil_r. }
  destruct Hgrow as [more Hmore]. exists more. split; [exact Hmore|].
  intros n Hn. rewrite Hmore. unfold GetFieldIndex in *.
  apply GetFieldIndex_from_app; [lia | exact Hn].
Qed.

Lemma fill_feature_length (cs : list CPLXMLNode) :
  forall defn f,
    length (fields (fill_feature cs defn f)) = length (fields f).
Proof.
  induction cs as [|c cs IH]; intros defn f; [reflexivity|].
  cbn [fill_feature].
  repeat case_match; rewrite IH; cbn [SetField SetGeometryDirectly fields];
    now rewrite ?length_insert.
Qed.

Lemma place_feature_length (defn : OGRFeatureDefn) (psPlace : CPLXMLNode) :
  length (fields (place_feature defn psPlace)) =
  length (fst (add_fields (psChild psPlace) defn no_LatLon)).
Proof.
  unfold place_feature.
  destruct (add_fields (psChild psPlace) defn no_LatLon) as [d l].
  cbn [fst]. cbv zeta.
  assert (Hlen : length (fields (fill_feature (psChild psPlace) d
                                   (new_OGRFeature d))) = length d).
  { rewrite fill_feature_length. cbn. apply length_replicate. }
  repeat case_match; cbn [SetGeometryDirectly fields]; exact Hlen.
Qed.

Lemma place_loop_features_fit (psPlace : list CPLXMLNode) :
  forall poLayer,
    Forall (fun f => (length (fields f) <= length (poFDefn poLayer))%nat)
           (papoFeatures poLayer) ->
    Forall (fun f =>
              (length (fields f)
               <= length (poFDefn (place_loop psPlace poLayer)))%nat)
           (papoFeatures (place_loop psPlace poLayer)).
Proof.
  induction psPlace as [|n psNext IH]; intros poLayer Hfit; [exact Hfit|].
  cbn [place_loop]. destruct (is_place n); apply IH; [|exact Hfit].
  cbn [build_place poFDefn papoFeatures].
  destruct (add_fields_appends (psChild n) (poFDefn poLayer) no_LatLon)
    as [more Hmore].
  apply Forall_app. split.
  - eapply Forall_impl; [exact Hfit|]. cbn beta. intros f Hf.
    rewrite Hmore, length_app. lia.
  - constructor; [|constructor]. now rewrite place_feature_length.
Qed.

(** X4: the slots of a record are those of the schema: a lookup in the schema
    gives -1 or an index within it, so that [SetField] never falls outside
    the record; a record has one slot per field the schema has when the
    record is made; and no record of a decoded layer has more slots than
    the layer has fields. *)
Theorem record_slots_fit_the_schema :
  (forall defn n, -1 <= GetFieldIndex defn n < Z.of_nat (length defn)) /\
  (forall defn psPlace,
     length (fields (place_feature defn psPlace)) =
     length (fst (add_fields (psChild psPlace) defn no_LatLon))) /\
  (forall pszContent poLayer,
     OGRGeocodeBuildLayer pszContent = Some poLayer ->
     Forall (fun f => (length (fields f) <= length (poFDefn poLayer))%nat)
            (papoFeatures poLayer)).
Proof.
  split; [exact GetFieldIndex_range|]. split; [exact place_feature_length|].
  intros pszContent poLayer Hb. unfold OGRGeocodeBuildLayer in Hb.
  destruct (CPLParseXMLString pszContent) as [psRoot|]; [|discriminate].
  destruct (CPLSearchXMLNode psRoot "=searchresults"); [|discriminate].
  injection Hb as <-. apply place_loop_features_fit. constructor.
Qed.

Lemma fill_feature_geotext (cs : list CPLXMLNode) :
  forall defn f,
    GetFieldIndex defn "geotext" < 0 ->
    poGeometry (fill_feature cs defn f) =
    geotext_geometry cs (poGeometry f).
Proof.
  induction cs as [|c cs IH]; intros defn f Hidx; [reflexivity|].
  cbn [fill_feature geotext_geometry]. unfold is_geotext.
  destruct (String.eqb (pszValue c) "geotext") eqn:E.
  - apply String.eqb_eq in E. rewrite E.
    destruct (0 <=? GetFieldIndex defn "geotext") eqn:Ei; [lia|].
    destruct (CPLGetXMLValue c None None) as [v|]; [|now apply IH].
    destruct (createFromWkt v); now rewrite IH.
  - destruct (0 <=? GetFieldIndex defn (pszValue c)); [|now apply IH].
    destruct (CPLGetXMLValue c None None); now rewrite IH.
Qed.

(** X5: as long as the schema has no field that answers to the name
    [geotext], the geometry of a record is that of the last geometry text
    of the place that is read as a geometry, whatever [lat] and [lon] hold;
    only without one it is the point of the captured longitude and
    latitude, or none. *)
Theorem geotext_wins_over_lat_lon (defn : OGRFeatureDefn)
    (psPlace : CPLXMLNode) :
  let defn' := fst (add_fields (psChild psPlace) defn no_LatLon) in
  let ll := snd (add_fields (psChild psPlace) defn no_LatLon) in
  GetFieldIndex defn' "geotext" < 0 ->
  poGeometry (place_feature defn psPlace) =
    match geotext_geometry (psChild psPlace) None with
    | Some g => Some g
    | None =>
        if bFoundLon ll && bFoundLat ll
        then Some (OGRPoint (dfLon ll) (dfLat ll)) else None
    end.
Proof.
  intros defn' ll Hidx. subst defn' ll. unfold place_feature.
  destruct (add_fields (psChild psPlace) defn no_LatLon) as [d l].
  cbn [fst snd] in *. cbv zeta.
  pose proof (fill_feature_geotext (psChild psPlace) d (new_OGRFeature d)
                Hidx) as Hg.
  cbn [new_OGRFeature poGeometry] in Hg. cbn [new_OGRFeature].
  rewrite Hg.
  destruct (geotext_geometry (psChild psPlace) None) eqn:Eg;
    [exact Hg|].
  destruct (bFoundLon l && bFoundLat l); [reflexivity | exact Hg].
Qed.

Lemma fill_feature_values (cs : list CPLXMLNode) :
  forall defn f (i : nat) v,
    fields (fill_feature cs defn f) !! i = Some (Some v) ->
    fields f !! i = Some (Some v) \/
    exists c,
      In c cs /\ CPLGetXMLValue c None None = Some v /\
      GetFieldIndex defn (pszValue c) = Z.of_nat i.
Proof.
  induction cs as [|c cs IH]; intros defn f i v Hv; [now left|].
  cbn [fill_feature] in Hv.
  assert (Hrest : forall f',
            fields f' = fields f ->
            fields (fill_feature cs defn f') !! i = Some (Some v) ->
            fields f !! i = Some (Some v) \/
            exists c',
              In c' (c :: cs) /\ CPLGetXMLValue c' None None = Some v /\
              GetFieldIndex defn (pszValue c') = Z.of_nat i).
  { intros f' Hf Hv'. destruct (IH defn f' i v Hv') as [Hl | (c' & Hin & Hc)].
    - left. now rewrite <- Hf.
    - right. exists c'. split; [now right | exact Hc]. }
  destruct (0 <=? GetFieldIndex defn (pszValue c)) eqn:Ei.
  - apply Z.leb_le in Ei.
    destruct (CPLGetXMLValue c None None) as [v0|] eqn:Ev;
      [|now apply (Hrest f)].
    destruct (IH defn _ i v Hv) as [Hl | (c' & Hin & Hc)].
    + cbn [SetField fields] in Hl.
      apply list_lookup_insert_Some in Hl.
      destruct Hl as [(Hi & Hx & _) | (_ & Hl)]; [|now left].
      right. exists c. split; [now left|]. split; [congruence | lia].
    + right. exists c'. split; [now right | exact Hc].
  - destruct (String.eqb (pszValue c) "geotext"); [|now apply (Hrest f)].
    destruct (CPLGetXMLValue c None None) as [w|]; [|now apply (Hrest f)].
    destruct (createFromWkt w) as [g|].
    + now apply (Hrest (SetGeometryDirectly f g)).
    + now apply (Hrest f).
Qed.

(** X6: a value a record holds comes from the place of the record: it is the
    text of a child of that place whose name the schema finds at the slot
    of the value. *)
Theorem record_values_come_from_the_place (defn : OGRFeatureDefn)
    (psPlace : CPLXMLNode) (i : nat) (v : string) :
  fields (place_feature defn psPlace) !! i = Some (Some v) ->
  exists c,
    In c (psChild psPlace) /\
    CPLGetXMLValue c None None = Some v /\
    GetFieldIndex (fst (add_fields (psChild psPlace) defn no_LatLon))
                  (pszValue c) = Z.of_nat i.
Proof.
  unfold place_feature.
  destruct (add_fields (psChild psPlace) defn no_LatLon) as [d l].
  cbn [fst]. cbv zeta. intros Hv.
  assert (Hf : fields (fill_feature (psChild psPlace) d (new_OGRFeature d))
               !! i = Some (Some v)).
  { revert Hv. repeat case_match; cbn [SetGeometryDirectly fields]; auto. }
  destruct (fill_feature_values _ _ _ _ _ Hf) as [Hnew | Hc]; [|exact Hc].
  cbn [new_OGRFeature fields] in Hnew.
  apply lookup_replicate in Hnew. destruct Hnew as [Hnew _]. discriminate.
Qed.
End MoreDecoderFacts.

(* ------------------------------------------------------------------ *)
(** *** More on the validator and on session creation *)
(* ------------------------------------------------------------------ *)

Lemma format_loop_percent_free (a : string) :
  percent_free a = true -> forall t st, format_loop (a ++ t) st = format_loop t st.
Proof.
  induction a as [|c a IH]; intros Hfree t st; [reflexivity|].
  cbn [percent_free] in Hfree. apply andb_true_iff in Hfree.
  destruct Hfree as [Hc Ha]. apply negb_true_iff in Hc.
  cbn [append format_loop]. rewrite Hc. now apply IH.
Qed.

Lemma format_loop_percent_free_end (a : string) :
  percent_free a = true -> forall st, format_loop a st = st.
Proof.
  induction a as [|c a IH]; intros Hfree st; [reflexivity|].
  cbn [percent_free] in Hfree. apply andb_true_iff in Hfree.
  destruct Hfree as [Hc Ha]. apply negb_true_iff in Hc.
  cbn [format_loop]. rewrite Hc. now apply IH.
Qed.

(** X7: a template made of texts without a percent sign around one [%s] is
    accepted, and a text without a percent sign is rejected. *)
Theorem plain_text_around_one_placeholder :
  (forall a b,
     percent_free a = true -> percent_free b = true ->
     OGRGeocodeHasStringValidFormat (a ++ "%s" ++ b) = true) /\
  (forall a,
     percent_free a = true -> OGRGeocodeHasStringValidFormat a = false).
Proof.
  split.
  - intros a b Ha Hb. unfold OGRGeocodeHasStringValidFormat.
    rewrite (format_loop_percent_free a Ha).
    change (format_loop ("%s" ++ b)
              {| bValidFormat := true; bFoundPctS := false |})
      with (format_loop (String "s" b)
              {| bValidFormat := true; bFoundPctS := true |}).
    change (format_loop (String "s" b)
              {| bValidFormat := true; bFoundPctS := true |})
      with (format_loop b {| bValidFormat := true; bFoundPctS := true |}).
    now rewrite (format_loop_percent_free_end b Hb).
  - intros a Ha. unfold OGRGeocodeHasStringValidFormat.
    now rewrite (format_loop_percent_free_end a Ha).
Qed.

Section MoreSessionFacts.
Context `{Double} `{!CPLPort} `{!Backend}.

Lemma OGRGeocodeGetParameter_default (papszOptions : list (string * string))
    (pszKey pszDefaultValue : string) :
  is_Some (OGRGeocodeGetParameter papszOptions pszKey
                                  (Some pszDefaultValue)).
Proof.
  unfold OGRGeocodeGetParameter, CPLGetConfigOption.
  repeat case_match; eauto.
Qed.

(** X8: a session is created only with a cache location that starts with
    [PG:] or has the extension [csv] or [sqlite], and it is created without
    a store: the handle is opened by the first use of the cache.  With any
    other location creation gives the NULL handle. *)
Theorem created_session_cache_location :
  (forall papszOptions s,
     OGRGeocodeCreateSession papszOptions = Some s ->
     accepted_cache_location (pszCacheFilename s) = true /\
     OGRGeocodeGetParameter papszOptions "CACHE_FILE"
       (Some DEFAULT_CACHE_SQLITE) = Some (pszCacheFilename s) /\
     poDS s = None) /\
  (forall papszOptions f,
     OGRGeocodeGetParameter papszOptions "CACHE_FILE"
       (Some DEFAULT_CACHE_SQLITE) = Some f ->
     accepted_cache_location f = false ->
     OGRGeocodeCreateSession papszOptions = None).
Proof.
  split.
  - intros papszOptions s Hc. unfold OGRGeocodeCreateSession in Hc.
    destruct (OGRGeocodeGetParameter papszOptions "CACHE_FILE" _)
      as [f|] eqn:Hf; simpl in Hc; [|discriminate].
    destruct (negb _) eqn:Hacc in Hc; [discriminate|].
    apply negb_false_iff in Hacc.
    session_cases Hc. injection Hc as <-. cbn. auto.
  - intros papszOptions f Hf Hbad. unfold OGRGeocodeCreateSession.
    rewrite Hf. simpl. unfold accepted_cache_location in Hbad.
    now rewrite Hbad.
Qed.

(** X9: when no template is set, by option or by configuration, the session
    of a preset service gets the template of the preset, and there is no
    session for any other service. *)
Theorem template_defaults_to_the_preset
    (papszOptions : list (string * string)) (s : OGRGeocodingSession) :
  CSLFetchNameValue papszOptions "QUERY_TEMPLATE" = None ->
  config_option (CPLSPrintf "OGR_GEOCODE_%s" ["QUERY_TEMPLATE"]) = None ->
  OGRGeocodeCreateSession papszOptions = Some s ->
  (EQUAL (pszGeocodingService s) "OSM_NOMINATIM" = true /\
   pszQueryTemplate s = OSM_NOMINATIM_QUERY) \/
  (EQUAL (pszGeocodingService s) "OSM_NOMINATIM" = false /\
   EQUAL (pszGeocodingService s) "MAPQUEST_NOMINATIM" = true /\
   pszQueryTemplate s = MAPQUEST_NOMINATIM_QUERY).
Proof.
  intros Hopt Hcfg Hc.
  assert (Hdef : forall d,
            OGRGeocodeGetParameter papszOptions "QUERY_TEMPLATE" d = d).
  { intros d. unfold OGRGeocodeGetParameter, CPLGetConfigOption.
    now rewrite Hopt, Hcfg. }
  unfold OGRGeocodeCreateSession in Hc.
  destruct (OGRGeocodeGetParameter papszOptions "CACHE_FILE" _);
    simpl in Hc; [|discriminate].
  destruct (negb _) in Hc; [discriminate|].
  destruct (OGRGeocodeGetParameter papszOptions "READ_CACHE" _);
    simpl in Hc; [|discriminate].
  destruct (OGRGeocodeGetParameter papszOptions "WRITE_CACHE" _);
    simpl in Hc; [|discriminate].
  destruct (OGRGeocodeGetParameter papszOptions "SERVICE" _) as [svc|];
    simpl in Hc; [|discriminate].
  destruct (OGRGeocodeGetParameter papszOptions "APPLICATION" _);
    simpl in Hc; [|discriminate].
  destruct (OGRGeocodeGetParameter papszOptions "DELAY" _);
    simpl in Hc; [|discriminate].
  rewrite Hdef in Hc.
  destruct (EQUAL svc "OSM_NOMINATIM") eqn:Hosm.
  - destruct (negb _) in Hc; [discriminate|].
    injection Hc as <-. cbn. now left.
  - destruct (EQUAL svc "MAPQUEST_NOMINATIM") eqn:Hmq; [|discriminate].
    destruct (negb _) in Hc; [discriminate|].
    injection Hc as <-. cbn. right. auto.
Qed.
End MoreSessionFacts.

(* ------------------------------------------------------------------ *)
(** *** More on the request executor: what one call does *)
(* ------------------------------------------------------------------ *)

Section MoreGeocodeFacts.
Context `{Double} `{!CPLPort} `{!Backend} `{!MiniXML} `{!OGRFeatureLib}.

Lemma counts_app (evs evs' : list Event) :
  get_count (evs ++ evs') = (get_count evs + get_count evs')%nat /\
  fetch_count (evs ++ evs') = (fetch_count evs + fetch_count evs')%nat /\
  put_count (evs ++ evs') = (put_count evs + put_count evs')%nat /\
  sleep_count (evs ++ evs') = (sleep_count evs + sleep_count evs')%nat.
Proof.
  unfold get_count, fetch_count, put_count, sleep_count.
  now rewrite !List.filter_app, !length_app.
Qed.

(** What the fetch, throttled or not, adds to the journal. *)
Lemma fetch_throttled_events (slot : option LastQueryTime) (url : string)
    (opts : list (string * string)) (p : Process) :
  exists fevs,
    journal (snd (fetch_throttled slot url opts p)) =
      (journal p ++ fevs)%list /\
    get_count fevs = 0%nat /\ fetch_count fevs = 1%nat /\
    put_count fevs = 0%nat /\ (sleep_count fevs <= 1)%nat /\
    (slot = None -> sleep_count fevs = 0%nat) /\
    (forall d, In (EvSleep d) fevs ->
               exists a b, double_lt a b = true /\ d = double_sub b a) /\
    (forall u b, ~ In (EvCachePut u b) fevs).
Proof.
  destruct slot as [slot|].
  - destruct (fetch_rate_limited slot url opts p) as (_ & Hj & _).
    cbv zeta in Hj. eexists. split; [exact Hj|].
    unfold sleep_events.
    destruct (double_lt (gettimeofday (env p)) (due_time slot p))
      eqn:Hlt; cbn.
    + repeat split; try lia; try discriminate.
      * intros d [Hd | [Hd | [Hd | [Hd | []]]]]; try discriminate.
        injection Hd as <-. eauto.
      * intros u b [Hd | [Hd | [Hd | [Hd | []]]]]; discriminate.
    + repeat split; try lia; try discriminate.
      * intros d [Hd | [Hd | [Hd | []]]]; discriminate.
      * intros u b [Hd | [Hd | [Hd | []]]]; discriminate.
  - destruct (fetch_unthrottled url opts p) as (_ & Hj & _).
    cbv zeta in Hj. eexists. split; [exact Hj|]. cbn.
    repeat split; try lia.
    + intros d [Hd | []]; discriminate.
    + intros u b [Hd | []]; discriminate.
Qed.

Lemma put_events_facts (s : OGRGeocodingSession) (key : string)
    (res : option CPLHTTPResult) :
  get_count (put_events s key res) = 0%nat /\
  fetch_count (put_events s key res) = 0%nat /\
  (put_count (put_events s key res) <= 1)%nat /\
  sleep_count (put_events s key res) = 0%nat /\
  (bWriteCache s = false -> put_count (put_events s key res) = 0%nat) /\
  (forall d, ~ In (EvSleep d) (put_events s key res)) /\
  (forall u b,
     In (EvCachePut u b) (put_events s key res) ->
     u = key /\ bWriteCache s = true /\
     decoded res = OGRGeocodeBuildLayer b).
Proof.
  unfold put_events, decoded.
  destruct res as [[[body|]]|]; cbn; try destruct (bWriteCache s); cbn;
    repeat split; try lia; try discriminate; try tauto;
    try (intros d [Hd | []]; discriminate);
    match goal with
    | Hin : _ \/ False |- _ =>
        destruct Hin as [Hin | []]; injection Hin as <- <-; reflexivity
    end.
Qed.

(** The journal of a call: the lookup if the session reads the cache;
    then, unless the cache has answered, the fetch with its timing and the
    storing of the body. *)
Lemma call_events (p : Process) (pszQuery : string) :
  let s := hSession p in
  let osURL := build_osURL s pszQuery in
  let c := cached_result osURL p in
  let r := OGRGeocode (Some pszQuery) None p in
  exists mid puts,
    journal (snd r) =
      (journal p ++ (if bReadCache s then [EvCacheGet osURL] else [])
       ++ mid ++ puts)%list /\
    ((exists body,
        fst c = Some body /\ bReadCache s = true /\
        mid = [] /\ puts = [] /\
        fst r = OGRGeocodeBuildLayer body) \/
     (exists s1 res,
        fst c = None /\
        puts = put_events s1 osURL res /\
        bWriteCache s1 = bWriteCache s /\
        fst r = decoded res /\
        get_count mid = 0%nat /\ fetch_count mid = 1%nat /\
        put_count mid = 0%nat /\ (sleep_count mid <= 1)%nat /\
        (select_LastQueryTime s = None -> sleep_count mid = 0%nat) /\
        (forall d, In (EvSleep d) mid ->
                   exists a b, double_lt a b = true /\ d = double_sub b a) /\
        (forall u b, ~ In (EvCachePut u b) mid))).
Proof.
  intros s osURL c r. subst s r. rewrite OGRGeocode_eq. fold osURL c.
  destruct (cached_result_frame osURL p) as (_ & Hj & Hf & Hoff & _).
  fold c in Hj, Hf, Hoff. destruct Hf as (Hset & _).
  destruct (fst c) as [body|] eqn:Hc.
  - exists [], []. cbn [fst snd]. split.
    + rewrite Hj. now rewrite !app_nil_r.
    + left. exists body. repeat split.
      destruct (bReadCache (hSession p)); [reflexivity|].
      specialize (Hoff eq_refl). discriminate.
  - destruct (geocode_miss_spec osURL
                (build_osURLWithEmail (hSession p) osURL) (snd c))
      as (Hr & Hjm & _ & _).
    cbv zeta in Hr, Hjm.
    set (f := fetch_throttled (select_LastQueryTime (hSession (snd c)))
                (build_osURLWithEmail (hSession p) osURL)
                (http_options (hSession (snd c))) (snd c)) in *.
    destruct (fetch_throttled_events
                (select_LastQueryTime (hSession (snd c)))
                (build_osURLWithEmail (hSession p) osURL)
                (http_options (hSession (snd c))) (snd c))
      as (fevs & Hjf & Hg & Hfc & Hp & Hsl & Hnone & Hpos & Hnoput).
    fold f in Hjf.
    exists fevs, (put_events (hSession (snd f)) osURL (fst f)). split.
    + rewrite Hjm, Hjf, Hj. now rewrite <- !app_assoc.
    + right. exists (hSession (snd f)), (fst f).
      split; [reflexivity|]. split; [reflexivity|].
      split.
      { unfold f. rewrite fetch_throttled_session.
        destruct Hset as (_ & _ & _ & _ & _ & _ & -> & _). reflexivity. }
      split; [exact Hr|].
      rewrite (select_same_settings _ _ Hset) in Hnone.
      auto 12.
Qed.

Lemma lookup_events_facts (b : bool) (key : string) :
  let gets := if b then [EvCacheGet key] else [] in
  (get_count gets <= 1)%nat /\ fetch_count gets = 0%nat /\
  put_count gets = 0%nat /\ sleep_count gets = 0%nat /\
  (b = false -> get_count gets = 0%nat) /\
  (forall d, ~ In (EvSleep d) gets) /\
  (forall u c, ~ In (EvCachePut u c) gets).
Proof.
  destruct b; cbn; repeat split; try lia; try discriminate;
    try (intros d [Hd | []]; discriminate);
    try (intros u c [Hd | []]; discriminate); tauto.
Qed.

Lemma uncached_call_session (p : Process) (pszQuery : string) :
  bReadCache (hSession p) = false ->
  bWriteCache (hSession p) = false ->
  hSession (snd (OGRGeocode (Some pszQuery) None p)) = hSession p.
Proof.
  intros Hread Hwrite. rewrite OGRGeocode_eq.
  assert (Hc : cached_result (build_osURL (hSession p) pszQuery) p
               = (None, p)).
  { unfold cached_result. rewrite bind_eq. unfold get_session.
    cbn [fst snd]. now rewrite Hread. }
  rewrite Hc. cbn [fst snd].
  unfold geocode_miss. rewrite bind_eq. unfold get_session.
  cbn [fst snd]. rewrite bind_eq.
  pose proof (fetch_throttled_session (select_LastQueryTime (hSession p))
                (build_osURLWithEmail (hSession p)
                   (build_osURL (hSession p) pszQuery))
                [("HEADERS",
                  CPLSPrintf "User-Agent: %s" [pszApplication (hSession p)])]
                p) as Hs.
  destruct (fetch_throttled _ _ _ p) as [[[[body|]]|] p1];
    cbn [fst snd pabyData] in *; try exact Hs.
  rewrite bind_eq. cbn [fst snd]. rewrite bind_eq.
  rewrite Hs, Hwrite. exact Hs.
Qed.

(** X10: a call asks the cache at most once, sends at most one fetch and stores
    at most one body, and it stores only when it has fetched; it does not
    ask the cache when the session does not read it nor store when the
    session does not write it, and with both flags off it leaves the
    session as it is, the cache location and the store handle included. *)
Theorem one_lookup_one_fetch_one_insert (p : Process)
    (pszQuery : option string)
    (papszStructuredQuery : option (list (string * string))) :
  let r := OGRGeocode pszQuery papszStructuredQuery p in
  exists evs,
    journal (snd r) = (journal p ++ evs)%list /\
    (get_count evs <= 1)%nat /\
    (fetch_count evs <= 1)%nat /\
    (put_count evs <= fetch_count evs)%nat /\
    (bReadCache (hSession p) = false -> get_count evs = 0%nat) /\
    (bWriteCache (hSession p) = false -> put_count evs = 0%nat) /\
    (bReadCache (hSession p) = false -> bWriteCache (hSession p) = false ->
     hSession (snd r) = hSession p).
Proof.
  destruct pszQuery as [q|], papszStructuredQuery as [sq|]; cbv zeta;
    try (exists []; cbn; rewrite app_nil_r;
         split; [reflexivity|]; split; [lia|]; split; [lia|];
         split; [lia|]; split; [reflexivity|]; split; reflexivity).
  destruct (call_events p q) as (mid & puts & Hj & Hcase).
  cbv zeta in Hj, Hcase.
  destruct (lookup_events_facts (bReadCache (hSession p))
              (build_osURL (hSession p) q))
    as (Hg1 & Hf1 & Hp1 & _ & Hoff & _).
  cbv zeta in Hg1, Hf1, Hp1, Hoff.
  eexists. split; [exact Hj|].
  destruct (counts_app
              (if bReadCache (hSession p)
               then [EvCacheGet (build_osURL (hSession p) q)] else [])
              (mid ++ puts)) as (-> & -> & -> & _).
  destruct (counts_app mid puts) as (-> & -> & -> & _).
  destruct Hcase as [(body & _ & _ & -> & -> & _) |
                     (s1 & res & _ & -> & Hw & _ & Hg & Hf & Hp & _)].
  - cbn. rewrite Hf1, Hp1.
    split; [lia|]. split; [lia|]. split; [lia|].
    split; [intros Hr; rewrite (Hoff Hr); reflexivity|].
    split; [reflexivity|].
    intros Hr Hwr. exact (uncached_call_session p q Hr Hwr).
  - destruct (put_events_facts s1 (build_osURL (hSession p) q) res)
      as (Hg2 & Hf2 & Hp2 & _ & Hwoff & _).
    rewrite Hf1, Hp1, Hg, Hf, Hp, Hg2, Hf2.
    split; [lia|]. split; [lia|]. split; [lia|].
    split; [intros Hr; rewrite (Hoff Hr); reflexivity|].
    split; [intros Hwr; rewrite Hwoff by congruence; reflexivity|].
    intros Hr Hwr. exact (uncached_call_session p q Hr Hwr).
Qed.

(** X11: what a call stores is what it returns: a body is stored under the url
    without the email, only by a session that writes the cache, only after
    the one fetch of the call, and the layer the call gives is the one
    decoded from that body. *)
Theorem stored_body_is_the_decoded_one (p : Process) (pszQuery : string) :
  let s := hSession p in
  let r := OGRGeocode (Some pszQuery) None p in
  exists evs,
    journal (snd r) = (journal p ++ evs)%list /\
    forall url body,
      In (EvCachePut url body) evs ->
      url = build_osURL s pszQuery /\
      bWriteCache s = true /\
      fetch_count evs = 1%nat /\
      fst r = OGRGeocodeBuildLayer body.
Proof.
  cbv zeta.
  destruct (call_events p pszQuery) as (mid & puts & Hj & Hcase).
  cbv zeta in Hj, Hcase.
  destruct (lookup_events_facts (bReadCache (hSession p))
              (build_osURL (hSession p) pszQuery))
    as (_ & Hf1 & _ & _ & _ & _ & Hnp1).
  cbv zeta in Hf1, Hnp1.
  eexists. split; [exact Hj|]. intros url body Hin.
  apply in_app_or in Hin. destruct Hin as [Hin | Hin];
    [now apply Hnp1 in Hin|].
  destruct Hcase as [(b & _ & _ & -> & -> & _) |
                     (s1 & res & _ & -> & Hw & Hr & _ & Hf & _ & _ & _ & _ & Hnp)].
  - destruct Hin.
  - apply in_app_or in Hin. destruct Hin as [Hin | Hin];
      [now apply Hnp in Hin|].
    destruct (put_events_facts s1 (build_osURL (hSession p) pszQuery) res)
      as (_ & Hf2 & _ & _ & _ & _ & Hput).
    destruct (Hput url body Hin) as (-> & Hws & Hd).
    split; [reflexivity|]. split; [congruence|]. split.
    + destruct (counts_app
                  (if bReadCache (hSession p)
                   then [EvCacheGet (build_osURL (hSession p) pszQuery)]
                   else [])
                  (mid ++ put_events s1 (build_osURL (hSession p) pszQuery)
                                     res)) as (_ & -> & _).
      destruct (counts_app mid
                  (put_events s1 (build_osURL (hSession p) pszQuery) res))
        as (_ & -> & _).
      rewrite Hf1, Hf, Hf2. reflexivity.
    + now rewrite Hr.
Qed.

(** X12: the rate limiter sleeps at most once in a call and only in a call
    that sends a fetch to a throttled service; and, when the difference of
    a double and a smaller one is found positive, the time it asks for is
    found positive. *)
Theorem sleeps_are_positive (p : Process) (pszQuery : option string)
    (papszStructuredQuery : option (list (string * string))) :
  positive_difference ->
  let r := OGRGeocode pszQuery papszStructuredQuery p in
  exists evs,
    journal (snd r) = (journal p ++ evs)%list /\
    (sleep_count evs <= fetch_count evs)%nat /\
    (fetch_count evs <= 1)%nat /\
    (select_LastQueryTime (hSession p) = None -> sleep_count evs = 0%nat) /\
    (forall d, In (EvSleep d) evs -> double_lt double_zero d = true).
Proof.
  intros Hdiff.
  destruct pszQuery as [q|], papszStructuredQuery as [sq|]; cbv zeta;
    try (exists []; cbn; rewrite app_nil_r;
         split; [reflexivity|]; split; [lia|]; split; [lia|];
         split; [reflexivity | intros d []]).
  destruct (call_events p q) as (mid & puts & Hj & Hcase).
  cbv zeta in Hj, Hcase.
  destruct (lookup_events_facts (bReadCache (hSession p))
              (build_osURL (hSession p) q))
    as (_ & Hf1 & _ & Hs1 & _ & Hns1 & _).
  cbv zeta in Hf1, Hs1, Hns1.
  eexists. split; [exact Hj|].
  destruct (counts_app
              (if bReadCache (hSession p)
               then [EvCacheGet (build_osURL (hSession p) q)] else [])
              (mid ++ puts)) as (_ & -> & _ & ->).
  destruct (counts_app mid puts) as (_ & -> & _ & ->).
  destruct Hcase as [(body & _ & _ & -> & -> & _) |
                     (s1 & res & _ & -> & _ & _ & _ & Hf & _ & Hsl & Hnone
                      & Hpos & _)].
  - cbn. rewrite Hf1, Hs1.
    split; [lia|]. split; [lia|]. split; [reflexivity|].
    intros d Hin. apply in_app_or in Hin.
    destruct Hin as [Hin | []]. now apply Hns1 in Hin.
  - destruct (put_events_facts s1 (build_osURL (hSession p) q) res)
      as (_ & Hf2 & _ & Hs2 & _ & Hns2 & _).
    rewrite Hf1, Hs1, Hf, Hf2, Hs2.
    split; [lia|]. split; [lia|].
    split; [intros Hsel; rewrite (Hnone Hsel); reflexivity|].
    intros d Hin. apply in_app_or in Hin.
    destruct Hin as [Hin | Hin]; [now apply Hns1 in Hin|].
    apply in_app_or in Hin.
    destruct Hin as [Hin | Hin]; [|now apply Hns2 in Hin].
    destruct (Hpos d Hin) as (a & b & Hlt & ->). exact (Hdiff a b Hlt).
Qed.
End MoreGeocodeFacts.

(* ------------------------------------------------------------------ *)
(** *** More on the cache: the store handle and the location *)
(* ------------------------------------------------------------------ *)

Section MoreCacheFacts.
Context `{Double} `{!CPLPort} `{!Backend}.

Lemma cache_layer_of_index (b : bool) (ds : OGRDataSource) (osExt : string)
    (p : Process) (l : OGRLayer) (i : Z) :
  fst (cache_layer_of b ds osExt p) = Some (l, i) -> 0 <= i.
Proof.
  unfold cache_layer_of, bind, get_session, call, ret.
  mrun; intros Heq; try discriminate; injection Heq as <- <-;
    match goal with
    | Hlt : (?z <? 0) = false |- 0 <= ?z => apply Z.ltb_ge in Hlt; exact Hlt
    end.
Qed.

Lemma OGRGeocodeGetCacheLayer_store (b : bool) (p : Process) (l : OGRLayer)
    (i : Z) :
  fst (OGRGeocodeGetCacheLayer b p) = Some (l, i) ->
  0 <= i /\ is_Some (poDS (hSession (snd (OGRGeocodeGetCacheLayer b p)))).
Proof.
  unfold OGRGeocodeGetCacheLayer. rewrite bind_eq.
  unfold get_session. cbn [fst snd].
  destruct (poDS (hSession p)) as [ds|] eqn:Hds.
  - intros Hl. split; [exact (cache_layer_of_index _ _ _ _ _ _ Hl)|].
    destruct (cache_layer_of_frame b ds
                (CPLGetExtension (pszCacheFilename (hSession p))) p)
      as (_ & _ & ->).
    rewrite Hds. eauto.
  - rewrite bind_eq.
    destruct (open_cache_store _ p) as [[ds1 ext1] p1]. cbn [fst snd].
    rewrite bind_eq.
    destruct (create_cache_store b ds1 ext1 p1) as [[[ds2|] ext2] p2];
      cbn [fst snd]; [|discriminate].
    rewrite bind_eq. unfold set_poDS. cbn [fst snd].
    intros Hl. split; [exact (cache_layer_of_index _ _ _ _ _ _ Hl)|].
    match goal with
    | |- context [cache_layer_of b ds2 ext2 ?q] =>
        destruct (cache_layer_of_frame b ds2 ext2 q) as (_ & _ & ->)
    end.
    cbn. eauto.
Qed.

(** X13: the layer of the cache comes with a store: when
    [OGRGeocodeGetCacheLayer] gives a layer, the index of the body field
    is not negative and the session holds the handle of the store; so a
    body read from the cache, and a body stored in it, leave the session
    with its handle set. *)
Theorem cache_access_sets_the_store_handle :
  (forall b p l i,
     fst (OGRGeocodeGetCacheLayer b p) = Some (l, i) ->
     0 <= i /\
     is_Some (poDS (hSession (snd (OGRGeocodeGetCacheLayer b p))))) /\
  (forall pszURL p pszRet,
     fst (OGRGeocodeGetFromCache pszURL p) = Some pszRet ->
     is_Some (poDS (hSession (snd (OGRGeocodeGetFromCache pszURL p))))) /\
  (forall pszURL pszContent p,
     fst (OGRGeocodePutIntoCache pszURL pszContent p) = true ->
     is_Some
       (poDS (hSession (snd (OGRGeocodePutIntoCache pszURL pszContent p))))).
Proof.
  split; [exact OGRGeocodeGetCacheLayer_store|]. split.
  - intros pszURL p pszRet. unfold OGRGeocodeGetFromCache.
    rewrite bind_eq. unfold record. cbn [fst snd]. rewrite bind_eq.
    pose proof (OGRGeocodeGetCacheLayer_store false
                  (add_event (EvCacheGet pszURL) p)) as Hst.
    destruct (OGRGeocodeGetCacheLayer false _) as [[[l i]|] p1];
      cbn [fst snd] in *; [|discriminate].
    destruct (Hst l i eq_refl) as (_ & Hds). revert Hds.
    unfold bind, call, ret. mrun; auto; discriminate.
  - intros pszURL pszContent p. unfold OGRGeocodePutIntoCache.
    rewrite bind_eq. unfold record. cbn [fst snd]. rewrite bind_eq.
    pose proof (OGRGeocodeGetCacheLayer_store true
                  (add_event (EvCachePut pszURL pszContent) p)) as Hst.
    destruct (OGRGeocodeGetCacheLayer true _) as [[[l i]|] p1];
      cbn [fst snd] in *; [|discriminate].
    destruct (Hst l i eq_refl) as (_ & Hds). revert Hds.
    unfold bind, call, ret. mrun; auto.
Qed.

Lemma open_cache_store_custom (osExt : string) (p : Process) :
  EQUAL (pszCacheFilename (hSession p)) DEFAULT_CACHE_SQLITE = false ->
  snd (fst (open_cache_store osExt p)) = osExt /\
  hSession (snd (open_cache_store osExt p)) = hSession p.
Proof.
  intros Hne.
  unfold open_cache_store, bind, get_session, call, ret,
         set_pszCacheFilename.
  mrun; try congruence; auto.
Qed.

Lemma create_cache_store_custom (b : bool) (ds : option OGRDataSource)
    (osExt : string) (p : Process) :
  EQUAL (pszCacheFilename (hSession p)) DEFAULT_CACHE_SQLITE = false ->
  let f := pszCacheFilename (hSession p) in
  let f' := pszCacheFilename (hSession (snd (create_cache_store b ds osExt p))) in
  f' = f \/
  (f' = CPLSPrintf "/vsimem/%s.%s" [CACHE_LAYER_NAME; osExt] /\
   EQUAL osExt "SQLITE" || EQUAL osExt "CSV" = true /\
   b = true /\ EQUALN f "PG:" 3 = false).
Proof.
  intros Hne.
  unfold create_cache_store, bind, get_session, call, ret,
         set_pszCacheFilename.
  mrun; try congruence; auto;
    right; repeat split; auto;
    repeat match goal with
           | Hb : _ && _ = true |- _ => apply andb_true_iff in Hb; destruct Hb
           | Hb : negb _ = true |- _ => apply negb_true_iff in Hb
           end; auto.
Qed.

(** X14: a cache location other than the default SQLite file is never switched
    to the CSV default: [OGRGeocodeGetCacheLayer] keeps it, or, when it is
    asked to create, the location is not a [PG:] one, its extension is
    SQLITE or CSV and the creation fails, switches it to the in-memory
    location of that extension. *)
Theorem custom_cache_location_is_kept (b : bool) (p : Process) :
  let f := pszCacheFilename (hSession p) in
  let f' :=
    pszCacheFilename (hSession (snd (OGRGeocodeGetCacheLayer b p))) in
  EQUAL f DEFAULT_CACHE_SQLITE = false ->
  f' = f \/
  (f' = CPLSPrintf "/vsimem/%s.%s" [CACHE_LAYER_NAME; CPLGetExtension f] /\
   EQUAL (CPLGetExtension f) "SQLITE" || EQUAL (CPLGetExtension f) "CSV"
     = true /\
   b = true /\ EQUALN f "PG:" 3 = false).
Proof.
  cbv zeta. intros Hne.
  unfold OGRGeocodeGetCacheLayer. rewrite bind_eq.
  unfold get_session. cbn [fst snd].
  destruct (poDS (hSession p)) as [ds|] eqn:Hds.
  - left.
    destruct (cache_layer_of_frame b ds
                (CPLGetExtension (pszCacheFilename (hSession p))) p)
      as (_ & _ & ->). reflexivity.
  - rewrite bind_eq.
    destruct (open_cache_store_custom
                (CPLGetExtension (pszCacheFilename (hSession p))) p Hne)
      as (Hext & Hs1).
    destruct (open_cache_store _ p) as [[ds1 ext1] p1].
    cbn [fst snd] in *. subst ext1. rewrite bind_eq.
    rewrite <- Hs1 in Hne.
    pose proof (create_cache_store_custom b ds1
                  (CPLGetExtension (pszCacheFilename (hSession p))) p1 Hne)
      as Hc.
    cbv zeta in Hc. rewrite Hs1 in Hc.
    destruct (create_cache_store b ds1 _ p1) as [[[ds2|] ext2] p2];
      cbn [fst snd] in *; [|exact Hc].
    rewrite bind_eq. unfold set_poDS. cbn [fst snd].
    match goal with
    | |- context [cache_layer_of b ds2 ext2 ?q] =>
        destruct (cache_layer_of_frame b ds2 ext2 q) as (_ & _ & ->)
    end.
    cbn. exact Hc.
Qed.
End MoreCacheFacts.

(* ------------------------------------------------------------------ *)
(** *** The model run on the small instance *)
(* ------------------------------------------------------------------ *)

Import Mock.

Example validator_examples :
  OGRGeocodeHasStringValidFormat "http://host/?q=%s&pct=100%%" = true /\
  OGRGeocodeHasStringValidFormat "%%s%s" = true /\
  OGRGeocodeHasStringValidFormat "http://host/" = false /\
  OGRGeocodeHasStringValidFormat "%s%s" = false /\
  OGRGeocodeHasStringValidFormat "q=%s&n=%d" = false /\
  OGRGeocodeHasStringValidFormat "q=%s&n=%" = false.
Proof. repeat split. Qed.

Example create_session_examples :
  option_map pszQueryTemplate
    (OGRGeocodeCreateSession [("SERVICE", "MAPQUEST_NOMINATIM")]) =
    Some MAPQUEST_NOMINATIM_QUERY /\
  OGRGeocodeCreateSession [("QUERY_TEMPLATE", "http://host/?q=%s&r=%s")] =
    None /\
  OGRGeocodeCreateSession [("SERVICE", "OTHER")] = None.
Proof. repeat split. Qed.

(** C1: the document with one place that has a latitude and a longitude
    gives one record with the point at them; in the document with two such
    places the second record has no geometry, because the first pass reads
    [lat] and [lon] only where it adds their fields to the schema, and the
    first place has added them. *)
Theorem second_place_gets_no_point :
  geometries (OGRGeocodeBuildLayer paris) =
    Some [Some (Point (47 # 20) (977 # 20))] /\
  geometries (OGRGeocodeBuildLayer two_places) =
    Some [Some (Point (47 # 20) (977 # 20)); None].
Proof. split; vm_compute; reflexivity. Qed.

Lemma rational_positive_difference : @positive_difference rational.
Proof.
  intros a b. cbn. destruct (Qlt_le_dec a b); [|discriminate].
  intros _. destruct (Qlt_le_dec 0 (b - a)); [reflexivity | lra].
Qed.



(** A call half a second after the last fetch, with a delay of one
    second. *)
Example rate_limiter_sleeps_half_a_second :
  journal (snd (OGRGeocode (Some "Paris") None recent)) =
  [EvCacheGet (build_osURL osm_session "Paris");
   EvGetTimeOfDay 100%Q;
   EvSleep (1 # 2)%Q;
   EvHTTPFetch
     (build_osURLWithEmail osm_session (build_osURL osm_session "Paris"))
     [("HEADERS", "User-Agent: GDAL 1.10")] (201 # 2)%Q;
   EvGetTimeOfDay (806 # 8)%Q;
   EvCachePut (build_osURL osm_session "Paris") paris].
Proof. vm_compute. reflexivity. Qed.

Example other_service_is_not_throttled :
  journal (snd (OGRGeocode (Some "Paris") None elsewhere)) =
    [EvHTTPFetch "http://photon.example.org/api?q=Paris&limit=1"
       [("HEADERS", "User-Agent: GDAL 1.10")] 100%Q] /\
  stamps_kept elsewhere (snd (OGRGeocode (Some "Paris") None elsewhere)).
Proof. split; vm_compute; repeat split. Qed.

(** Without a SQLite driver the first call switches the cache location of
    the session to the CSV default. *)
Lemma cache_location_falls_back :
  pszCacheFilename (hSession fresh) = "ogr_geocode_cache.sqlite" /\
  pszCacheFilename (hSession (snd (OGRGeocode (Some "Paris") None fresh))) =
    "ogr_geocode_cache.csv".
Proof. split; vm_compute; reflexivity. Qed.

Lemma decoder_one_record_per_place_witness :
  exists poLayer,
    OGRGeocodeBuildLayer two_places = Some poLayer /\
    length (papoFeatures poLayer) = 2%nat.
Proof.
  assert (Hp : CPLParseXMLString two_places = Some two_places_tree)
    by reflexivity.
  assert (Hs : CPLSearchXMLNode two_places_tree "=searchresults" =
               Some (element "searchresults"
                       [element "place"
                          [attribute "lat" "48.85"; attribute "lon" "2.35"];
                        element "place"
                          [attribute "lat" "45.76"; attribute "lon" "4.83"]]))
    by reflexivity.
  destruct (decoder_one_record_per_place _ _ _ Hp Hs)
    as (poLayer & Hb & _ & Hlen & _).
  exists poLayer. split; [exact Hb | exact Hlen].
Defined.

Lemma bad_geotext_unparseable :
  geotext_unparseable (psChild bad_geotext_place).
Proof.
  intros c v [<- | [<- | [<- | []]]] Hname Hval;
    try discriminate Hname.
  vm_compute in Hval. injection Hval as <-. reflexivity.
Qed.

Lemma unparseable_geotext_is_discarded_witness :
  poGeometry (place_feature [] bad_geotext_place) =
    Some (Point (47 # 20) (977 # 20)) /\
  place_feature [] bad_geotext_place =
    place_feature [] (without_geotext bad_geotext_place).
Proof.
  pose proof (unparseable_geotext_is_discarded [] bad_geotext_place
                bad_geotext_unparseable) as (_ & _ & _ & Hg & Hsame).
  split; [exact Hg|]. apply Hsame. vm_compute. reflexivity.
Defined.

(** A place with an attribute named GEOTEXT: the schema gets the field
    GEOTEXT from the attribute, the lookup of [geotext] finds that field,
    and the text that is not a geometry is stored in it. *)
Lemma unparseable_geotext_is_stored :
  createFromWkt "nowhere" = None /\
  CPLGetXMLValue (element "geotext" [XMLNode CXT_Text "nowhere" []])
                 None None = Some "nowhere" /\
  fst (add_fields (psChild clashing_geotext_place) [] no_LatLon) =
    [{| fld_name := "GEOTEXT"; fld_type := OFTString |}] /\
  fields (place_feature [] clashing_geotext_place) = [Some "nowhere"] /\
  fields (place_feature [] (without_geotext clashing_geotext_place)) =
    [Some "unknown"].
Proof. repeat split; vm_compute; reflexivity. Qed.

(* ------------------------------------------------------------------ *)
(** *** The further statements on the small instance *)
(* ------------------------------------------------------------------ *)

Lemma strcasecmp_eq_refl (n : string) : strcasecmp_eq n n = true.
Proof.
  induction n as [|c n IH]; [reflexivity|].
  cbn [strcasecmp_eq]. now rewrite Ascii.eqb_refl, IH.
Qed.

Lemma decoded_fields_typed_by_name_witness :
  exists poLayer,
    OGRGeocodeBuildLayer paris = Some poLayer /\
    Forall well_typed_field (poFDefn poLayer).
Proof.
  eexists. split; [vm_compute; reflexivity|].
  apply (decoded_fields_typed_by_name paris). vm_compute. reflexivity.
Defined.

Lemma decoded_field_names_distinct_witness :
  exists poLayer,
    OGRGeocodeBuildLayer two_places = Some poLayer /\
    List.NoDup (map fld_name (poFDefn poLayer)).
Proof.
  eexists. split; [vm_compute; reflexivity|].
  refine (@decoded_field_names_distinct rational port minixml features
            two_places _
            strcasecmp_eq_refl _).
  vm_compute. reflexivity.
Defined.

Lemma geotext_wins_over_lat_lon_witness :
  poGeometry (place_feature [] polygon_place) =
  Some (Wkt "POLYGON((2 48,3 48,3 49,2 48))").
Proof.
  refine (geotext_wins_over_lat_lon [] polygon_place _).
  vm_compute. reflexivity.
Defined.

Lemma record_values_come_from_the_place_witness :
  exists c,
    In c (psChild polygon_place) /\
    CPLGetXMLValue c None None = Some "2.35" /\
    GetFieldIndex (fst (add_fields (psChild polygon_place) [] no_LatLon))
                  (pszValue c) = 1.
Proof.
  apply (record_values_come_from_the_place [] polygon_place 1%nat "2.35").
  vm_compute. reflexivity.
Defined.

Lemma template_defaults_to_the_preset_witness :
  option_map pszQueryTemplate
    (OGRGeocodeCreateSession [("SERVICE", "MAPQUEST_NOMINATIM")]) =
  Some MAPQUEST_NOMINATIM_QUERY.
Proof.
  destruct (OGRGeocodeCreateSession [("SERVICE", "MAPQUEST_NOMINATIM")])
    as [s|] eqn:Hc; [|vm_compute in Hc; discriminate].
  assert (Hopt : CSLFetchNameValue [("SERVICE", "MAPQUEST_NOMINATIM")]
                   "QUERY_TEMPLATE" = None) by reflexivity.
  assert (Hcfg : config_option (CPLSPrintf "OGR_GEOCODE_%s" ["QUERY_TEMPLATE"])
                 = None) by reflexivity.
  destruct (template_defaults_to_the_preset _ s Hopt Hcfg Hc)
    as [(Hosm & _) | (_ & _ & Ht)].
  - vm_compute in Hc. injection Hc as <-. vm_compute in Hosm. discriminate.
  - cbn. now rewrite Ht.
Defined.

Lemma custom_cache_location_is_kept_witness :
  pszCacheFilename (hSession (snd (OGRGeocodeGetCacheLayer true custom))) =
  "my_cache.csv".
Proof.
  assert (Hne : EQUAL (pszCacheFilename (hSession custom))
                  DEFAULT_CACHE_SQLITE = false) by reflexivity.
  destruct (custom_cache_location_is_kept true custom Hne)
    as [Hkept | (Hmem & _)]; [exact Hkept|].
  vm_compute in Hmem. discriminate.
Defined.

Example one_call_on_a_custom_cache :
  journal (snd (OGRGeocode (Some "Paris") None custom)) =
    [EvCacheGet (build_osURL (hSession custom) "Paris");
     EvGetTimeOfDay 100%Q;
     EvHTTPFetch (build_osURL (hSession custom) "Paris")
       [("HEADERS", "User-Agent: GDAL 1.10")] 100%Q;
     EvGetTimeOfDay (401 # 4)%Q;
     EvCachePut (build_osURL (hSession custom) "Paris") paris] /\
  hSession (snd (OGRGeocode (Some "Paris") None custom)) =
    {| pszCacheFilename := "my_cache.csv";
       pszGeocodingService := "OSM_NOMINATIM";
       pszEmail := None;
       pszApplication := "GDAL 1.10";
       pszQueryTemplate := OSM_NOMINATIM_QUERY;
       pszExtraQueryParameters := None;
       bReadCache := true;
       bWriteCache := true;
       dfDelayBetweenQueries := 1%Q;
       poDS := Some "my_cache.csv" |}.
Proof. split; vm_compute; reflexivity. Qed.

Lemma sleeps_are_positive_witness :
  double_lt double_zero (1 # 2)%Q = true.
Proof.
  destruct (sleeps_are_positive recent (Some "Paris") None
              rational_positive_difference)
    as (evs & Hj & _ & _ & _ & Hpos).
  apply Hpos. vm_compute in Hj. rewrite <- Hj.
  cbn. right. right. left. reflexivity.
Defined.

(* ------------------------------------------------------------------ *)
(** *** The rate limiter on binary64 numbers *)
(* ------------------------------------------------------------------ *)

Import Binary64.

(** A call at the time the last fetch has ended, with a delay of half a
    second: the sum and the difference are exact, and the fetch starts
    half a second after the time stamp. *)
Lemma rate_limiter_spaces_the_fetches_witness :
  (value midday + value half <=
   value
     (gettimeofday
        (env_at_fetch OSMNominatim
           (snd (cached_result (build_osURL (hSession paced) "Paris")
                   paced)))))%Q.
Proof.
  assert (Hmiss : fst (cached_result (build_osURL (hSession paced) "Paris")
                         paced) = None)
    by (vm_compute; reflexivity).
  assert (Hslot : select_LastQueryTime (hSession paced) = Some OSMNominatim)
    by reflexivity.
  destruct (rate_limiter_spaces_the_fetches paced "Paris" OSMNominatim
              Hmiss Hslot) as (_ & _ & Hgap & _).
  apply (Hgap value).
  split; [vm_compute; discriminate|].
  split; [vm_compute; discriminate|].
  intros _. split; vm_compute; discriminate.
Defined.

(** Two calls one after the other, with a delay of a tenth of a second,
    the second at the time the first has left as the time stamp: the sum
    of the time stamp and the delay is rounded down, the sleep asked is
    shorter than the delay, and the second fetch starts less than the
    delay after the first has ended. *)
Lemma rounded_sleep_is_short :
  dfDelayBetweenQueries (hSession started) = tenth /\
  journal (snd (OGRGeocode (Some "Paris") None
                  (snd (OGRGeocode (Some "Paris") None started)))) =
    [EvGetTimeOfDay midday;
     EvHTTPFetch (build_osURL (hSession started) "Paris")
       [("HEADERS", "User-Agent: GDAL 1.10")] midday;
     EvGetTimeOfDay midday;
     EvGetTimeOfDay midday;
     EvSleep (double_sub (double_add midday tenth) midday);
     EvHTTPFetch (build_osURL (hSession started) "Paris")
       [("HEADERS", "User-Agent: GDAL 1.10")] (double_add midday tenth);
     EvGetTimeOfDay (double_add midday tenth)] /\
  (value (double_sub (double_add midday tenth) midday) < value tenth)%Q /\
  (value (double_add midday tenth) - value midday < value tenth)%Q /\
  Qred (value tenth) = (3602879701896397 # 36028797018963968)%Q /\
  Qred (value (double_add midday tenth) - value midday) =
    (209715 # 2097152)%Q.
Proof. repeat split; vm_compute; reflexivity. Qed.
